(** * tullkodsgenerator: the code normalisation and batch classification
    of [tullkod_model.py], embedded and verified.

    Python text ([str]) is a sequence of Unicode code points.  The two
    regular expressions of [normalize_code] and [str.isdigit] consult the
    Unicode database of the interpreter, which is not part of the
    repository: the three character classes they use are the fields of the
    class [CharClasses], together with the facts about them that hold in
    every CPython 3 (see the class).  Everything below is stated for every
    such classification; [ascii_classes] and [sample_classes] are two of
    them, and the examples compute with them.

    The completion service is a function from the rendered messages to a
    text or an exception; the reference hierarchy is a text given from
    outside.  A table is the list of its rows, a row the list of its
    labelled cells; [df.apply] hands the function the rows of [df.values],
    in which the whole numbers of a table of numbers with a float are
    floats. *)

From Stdlib Require Import List NArith ZArith Bool Arith Lia String Ascii DecimalString.
Import ListNotations.

Set Implicit Arguments.

(* [length] is the length of a list throughout (String has one of its own). *)
Abbreviation length := Datatypes.length.

(** ** Text *)

Definition char := N.
Definition pystr := list char.

(** An ASCII literal as Python text (one code point per byte: only for
    literals below 128). *)
Definition str (s : string) : pystr := map N_of_ascii (list_ascii_of_string s).

Definition char_eqb : char -> char -> bool := N.eqb.

Fixpoint pystr_eqb (a b : pystr) : bool :=
  match a, b with
  | [], [] => true
  | x :: a', y :: b' => char_eqb x y && pystr_eqb a' b'
  | _, _ => false
  end.

Definition in_range (lo hi c : char) : bool := (lo <=? c)%N && (c <=? hi)%N.

(** The ASCII part of [\d]: 0-9. *)
Definition ascii_decimal (c : char) : bool := in_range 48%N 57%N c.

(** The ASCII part of [\w]: letters, digits and the underscore. *)
Definition ascii_word (c : char) : bool :=
  in_range 48%N 57%N c || in_range 65%N 90%N c || in_range 97%N 122%N c
  || (c =? 95)%N.

(** The character classes of CPython's [re] (on [str] patterns, no flags) and
    of [str.isdigit]:
    - [isdecimal c]: [\d] matches [c] (Unicode decimal digit, Py_UNICODE_ISDECIMAL);
    - [isdigit c]: [str.isdigit] accepts [c] (Py_UNICODE_ISDIGIT);
    - [isword c]: [\w] matches [c] (alphanumeric or underscore).
    A decimal digit has the digit property and is alphanumeric; below 128 the
    classes are the ASCII ones. *)
Class CharClasses := {
  isdecimal : char -> bool;
  isdigit : char -> bool;
  isword : char -> bool;
  isdecimal_isdigit : forall c, isdecimal c = true -> isdigit c = true;
  isdecimal_isword : forall c, isdecimal c = true -> isword c = true;
  isdecimal_ascii : forall c, (c < 128)%N -> isdecimal c = ascii_decimal c;
  isword_ascii : forall c, (c < 128)%N -> isword c = ascii_word c
}.

(** ** Regular expressions and string methods *)

Section Normalization.

Context {U : CharClasses}.

(** [re.sub(r"\D+", "", text)]: every maximal run of non-digits is replaced
    by the empty string, which keeps exactly the characters [\d] matches, in
    order. *)
Definition re_sub_nondigits (text : pystr) : pystr := filter isdecimal text.

(** [s.isdigit()]: false on the empty string. *)
Definition str_isdigit (s : pystr) : bool :=
  match s with
  | [] => false
  | _ => forallb isdigit s
  end.

(** [\b] between two neighbouring positions; outside the string counts as a
    non-word character (so [\b] never matches in the empty string). *)
Definition opt_word (c : option char) : bool :=
  match c with
  | Some x => isword x
  | None => false
  end.

Definition at_boundary (prev next : option char) : bool :=
  xorb (opt_word prev) (opt_word next).

(** What [re.search] returns: the position and the text of the match. *)
Record Match := { m_start : nat; m_group : pystr }.

(** One attempt of [\b\d{10}\b] at a position: [prev] is the character just
    before it (if any), [rest] the text from it on. *)
Definition match_here (prev : option char) (rest : pystr) : option pystr :=
  if at_boundary prev (hd_error rest) then
    let run := firstn 10 rest in
    if (length run =? 10) && forallb isdecimal run then
      if at_boundary (nth_error run 9) (hd_error (skipn 10 rest))
      then Some run else None
    else None
  else None.

(** [re.search] tries every start position from left to right, the end of
    the text included. *)
Fixpoint search_from (pos : nat) (prev : option char) (rest : pystr) : option Match :=
  match match_here prev rest with
  | Some g => Some {| m_start := pos; m_group := g |}
  | None =>
      match rest with
      | [] => None
      | c :: rest' => search_from (S pos) (Some c) rest'
      end
  end.

(** [re.search(r"\b\d{10}\b", text)] *)
Definition re_search_10 (text : pystr) : option Match := search_from 0 None text.

(** ** normalize_code *)

Definition UNKNOWN : pystr := str "UNKNOWN".

Definition accepted_lengths : list nat := [10; 8; 6; 4; 2].

(** [for k in (10, 8, 6, 4, 2): if len(digits) == k: return digits] *)
Fixpoint first_length_match (ks : list nat) (digits : pystr) : option pystr :=
  match ks with
  | [] => None
  | k :: ks' =>
      if length digits =? k then Some digits else first_length_match ks' digits
  end.

Definition normalize_code (text : option pystr) : pystr :=
  match text with
  | None => UNKNOWN
  | Some [] => UNKNOWN
  | Some text =>
      let digits := re_sub_nondigits text in
      match digits with
      | [] => UNKNOWN
      | _ =>
          match first_length_match accepted_lengths digits with
          | Some code => code
          | None =>
              match re_search_10 text with
              | Some m => m_group m
              | None =>
                  if str_isdigit digits && (length digits <=? 12)
                  then digits else UNKNOWN
              end
          end
      end
  end.

End Normalization.

(** The classification of [re.ASCII]: nothing above 127 is a digit or a word
    character. *)
#[export, refine] Instance ascii_classes : CharClasses := {|
  isdecimal c := ascii_decimal c;
  isdigit c := ascii_decimal c;
  isword c := ascii_word c
|}.
Proof.
  - auto.
  - intros c H. unfold ascii_word. unfold ascii_decimal in H. rewrite H. reflexivity.
  - reflexivity.
  - reflexivity.
Defined.

(** A classification with more than ASCII in it: the Arabic-Indic digits
    U+0660 to U+0669 are decimal digits, superscript two (U+00B2) passes
    [str.isdigit] without being a decimal digit, and the letters of Latin-1
    (U+00C0 to U+00FF without the two signs among them) are word
    characters. *)
Definition sample_decimal (c : char) : bool :=
  ascii_decimal c || in_range 1632%N 1641%N c.

Definition sample_digit (c : char) : bool := sample_decimal c || (c =? 178)%N.

Definition sample_word (c : char) : bool :=
  ascii_word c || in_range 1632%N 1641%N c
  || (in_range 192%N 255%N c && negb (c =? 215)%N && negb (c =? 247)%N).

Lemma in_range_above (lo hi c : char) :
  (128 <= lo)%N -> (c < 128)%N -> in_range lo hi c = false.
Proof.
  intros Hlo Hc. unfold in_range. apply andb_false_iff. left.
  apply N.leb_gt. lia.
Qed.

#[refine] Instance sample_classes : CharClasses | 100 := {|
  isdecimal := sample_decimal;
  isdigit := sample_digit;
  isword := sample_word
|}.
Proof.
  - intros c H. unfold sample_digit. rewrite H. reflexivity.
  - intros c H. unfold sample_word. unfold sample_decimal in H.
    apply orb_true_iff in H as [H|H].
    + unfold ascii_word. unfold ascii_decimal in H. rewrite H. reflexivity.
    + rewrite H, orb_true_r. reflexivity.
  - intros c H. unfold sample_decimal.
    rewrite (@in_range_above 1632%N 1641%N c) by (auto; lia). apply orb_false_r.
  - intros c H. unfold sample_word.
    rewrite (@in_range_above 1632%N 1641%N c), (@in_range_above 192%N 255%N c) by (auto; lia).
    simpl. rewrite !orb_false_r. reflexivity.
Defined.

(** * Prompt construction, single classification and the batch column *)

(** ** Exceptions *)

Inductive result (E A : Type) : Type :=
| Ok (a : A)
| Raise (e : E).

Arguments Ok {E A} a.
Arguments Raise {E A} e.

Definition bind {E A B : Type} (c : result E A) (k : A -> result E B) : result E B :=
  match c with
  | Ok a => k a
  | Raise e => Raise e
  end.

Notation "x <- c ;; k" := (bind c (fun x => k))
  (at level 61, c at next level, right associativity).

(** Calls in sequence, left to right; the first exception ends the loop. *)
Fixpoint mapM {E A B : Type} (f : A -> result E B) (l : list A) : result E (list B) :=
  match l with
  | [] => Ok []
  | a :: l' => b <- f a ;; bs <- mapM f l' ;; Ok (b :: bs)
  end.

(** ** Prompt templates *)

Definition newline : char := 10%N.

Definition unlines (ls : list pystr) : pystr := List.concat (map (fun l => l ++ [newline]) ls).

(** [system_prompt]: the triple-quoted text, from the line break after the
    opening quotes to the one before the closing quotes. *)
Definition system_prompt : pystr :=
  newline :: unlines [
    str "You are a customs classification assistant.";
    str "";
    str "You are given:";
    str "1) The Swedish TARIC/HS classification hierarchy for Chapter 30 (pharmaceutical products) as JSON.";
    str "2) A product name.";
    str "3) A product description (Swedish).";
    str "4) A list of substance names / composition.";
    str "";
    str "Task:";
    str "- Identify the most specific correct TARIC code (`code`) from the JSON that matches the product.";
    str "- Use ONLY the JSON to decide (do not invent codes).";
    str "- Prefer a 10-digit TARIC code when possible.";
    str "- If the JSON does not contain a 10-digit match, return the closest most specific code found in the JSON";
    str "  (prefer 10 digits; otherwise 8, 6, 4, 2).";
    str "- If the product cannot be classified within Chapter 30, return: UNKNOWN.";
    str "- Important: Never output descriptions or explanations, just the code (or UNKNOWN)."
  ].

(** The variables of the user template. *)
Record PromptInput := {
  p_json : pystr;
  p_name : pystr;
  p_desc : pystr;
  p_composition : pystr
}.

(** The two messages [prompt] renders. *)
Record Messages := { system : pystr; user : pystr }.

(** a with diaeresis, U+00E4, in "Produktsammansattning" *)
Definition a_umlaut : char := 228%N.

(** The user template with its four variables filled in. *)
Definition user_message (i : PromptInput) : pystr :=
  str "JSON:" ++ [newline] ++ p_json i ++ [newline; newline]
  ++ str "Produktnamn: " ++ p_name i ++ [newline]
  ++ str "Produktbeskrivning: " ++ p_desc i ++ [newline]
  ++ str "Produktsammans" ++ [a_umlaut] ++ str "ttning / substanser: "
  ++ p_composition i.

Definition prompt (i : PromptInput) : Messages :=
  {| system := system_prompt; user := user_message i |}.

(** [x or ""] for an optional text. *)
Definition or_empty (x : option pystr) : pystr :=
  match x with
  | None => []
  | Some [] => []
  | Some s => s
  end.

(** ** Table cells and rows *)

(** What a cell of the table may hold: a text, the NaN that pandas stores
    for an empty spreadsheet cell, [None], a whole number, a float (kept as
    the text [str()] gives for it), or any other object (a boolean, a
    date), which the code only ever sees through [str()] and which is kept
    as that text. A sheet holds its numbers as doubles, so a whole number
    is below 2^53 in absolute value. *)
Inductive cell : Type :=
| CellStr (s : pystr)
| CellNaN
| CellNone
| CellOther (rendering : pystr)
| CellInt (z : Z)
| CellFloat (rendering : pystr).

(** [str(z)] for a whole number. *)
Definition decimal (z : Z) : pystr := str (NilZero.string_of_int (Z.to_int z)).

(** [str(v)] *)
Definition py_str (v : cell) : pystr :=
  match v with
  | CellStr s => s
  | CellNaN => str "nan"
  | CellNone => str "None"
  | CellOther r => r
  | CellInt z => decimal z
  | CellFloat r => r
  end.

(** A row: the column labels with the values of the row, in column order
    (labels are distinct, as [read_excel] makes them). A table is its rows
    in order, each cell as the table stores it; the table has at least one
    row ([app.py] stops at an empty sheet, for which pandas leaves the row
    loop aside altogether). *)
Definition Series := list (pystr * cell).
Definition DataFrame := list Series.

(** The type of the array [df.values]: the common type of the columns.
    Columns of whole numbers only give [int64]; columns of numbers with a
    float or a NaN among them give [float64]; a column with anything else
    (a text, [None], a boolean, a date) gives [object]. *)
Inductive dtype : Type := int64 | float64 | object.

Definition cell_dtype (v : cell) : dtype :=
  match v with
  | CellInt _ => int64
  | CellFloat _ | CellNaN => float64
  | CellStr _ | CellNone | CellOther _ => object
  end.

Definition common_dtype (a b : dtype) : dtype :=
  match a, b with
  | object, _ | _, object => object
  | float64, _ | _, float64 => float64
  | int64, int64 => int64
  end.

Definition row_dtype (row : Series) : dtype :=
  fold_right (fun kv acc => common_dtype (cell_dtype (snd kv)) acc) int64 row.

Definition values_dtype (df : DataFrame) : dtype :=
  fold_right (fun row acc => common_dtype (row_dtype row) acc) int64 df.

(** A whole number in an array of floats: [str(float(z))] is the digits of
    [z] followed by ".0". *)
Definition as_float (v : cell) : cell :=
  match v with
  | CellInt z => CellFloat (decimal z ++ str ".0")
  | _ => v
  end.

(** A row of [df.values]: in an array of floats the whole numbers are
    floats; in the other arrays the cells are as they are stored. *)
Definition values_row (t : dtype) (row : Series) : Series :=
  match t with
  | float64 => map (fun kv => (fst kv, as_float (snd kv))) row
  | _ => row
  end.

(** A row of the table as [df.apply(..., axis=1)] hands it to the
    function: the row of [df.values], under the labels of the columns. *)
Definition as_applied (df : DataFrame) (row : Series) : Series :=
  values_row (values_dtype df) row.

Definition df_values (df : DataFrame) : list Series := map (as_applied df) df.

(** [row.get(key, default)] *)
Fixpoint series_get (row : Series) (key : pystr) (default : cell) : cell :=
  match row with
  | [] => default
  | (k, v) :: row' => if pystr_eqb k key then v else series_get row' key default
  end.

(** One row of [df[key] = ...]: the column is overwritten where it is, or
    added after the last one. *)
Fixpoint series_set (row : Series) (key : pystr) (v : cell) : Series :=
  match row with
  | [] => [(key, v)]
  | (k, x) :: row' =>
      if pystr_eqb k key then (k, v) :: row' else (k, x) :: series_set row' key v
  end.

(** [df[key] = values], [values] being indexed like [df]: row by row; a row
    without a value would get NaN. *)
Fixpoint df_setitem (df : DataFrame) (key : pystr) (values : list cell) : DataFrame :=
  match df with
  | [] => []
  | row :: df' =>
      match values with
      | [] => series_set row key CellNaN :: df_setitem df' key []
      | v :: values' => series_set row key v :: df_setitem df' key values'
      end
  end.

Definition labels (row : Series) : list pystr := map fst row.

(** ** classify_product and add_tullkod_column *)

Section Classification.

Context {U : CharClasses}.

(** What the completion service may raise. *)
Variable E : Type.

(** [taric_text]: the JSON text of the reference hierarchy, read from a
    data file at start-up. *)
Variable taric_text : pystr.

(** The completion service followed by the output parser: messages in, text
    out, or an exception. *)
Variable llm : Messages -> result E pystr.

(** The dictionary [classify_product] passes to the chain. *)
Definition classify_input (product_name product_description composition : option pystr)
  : PromptInput :=
  {| p_json := taric_text;
     p_name := or_empty product_name;
     p_desc := or_empty product_description;
     p_composition := or_empty composition |}.

(** [classification_chain.invoke]: prompt, service, parser. *)
Definition classification_chain (i : PromptInput) : result E pystr := llm (prompt i).

Definition classify_product (product_name product_description composition : option pystr)
  : result E pystr :=
  raw <- classification_chain
           (classify_input product_name product_description composition) ;;
  Ok (normalize_code (Some raw)).

(** The text of a field of a row: [str(row.get(col, ""))]. *)
Definition row_field (row : Series) (col : pystr) : pystr :=
  py_str (series_get row col (CellStr [])).

(** The dictionary the chain receives for a row. *)
Definition row_input (name_col desc_col comp_col : pystr) (row : Series) : PromptInput :=
  classify_input (Some (row_field row name_col)) (Some (row_field row desc_col))
                 (Some (row_field row comp_col)).

Definition _classify_row (name_col desc_col comp_col : pystr) (row : Series)
  : result E pystr :=
  classify_product (Some (row_field row name_col)) (Some (row_field row desc_col))
                   (Some (row_field row comp_col)).

(** [df.apply(f, axis=1)]: [f] on every row of [df.values], first to
    last (for a table with rows: without rows pandas does not run this
    loop). *)
Definition df_apply_rows (f : Series -> result E pystr) (df : DataFrame)
  : result E (list pystr) :=
  mapM f (df_values df).

Definition add_tullkod_column (df : DataFrame) (name_col desc_col comp_col output_col : pystr)
  : result E DataFrame :=
  codes <- df_apply_rows (_classify_row name_col desc_col comp_col) df ;;
  Ok (df_setitem df output_col (map CellStr codes)).

End Classification.

(** The default of [output_col]. *)
Definition default_output_col : pystr := str "Tullkod".

(** * The explanation chain and the application script *)

(** ** Text literals beyond ASCII *)

(** The code points of a UTF-8 byte sequence (the encoding of the source
    files): how the literals of the source with Swedish letters are
    written down here. *)
Fixpoint utf8_decode (bs : list N) : pystr :=
  match bs with
  | [] => []
  | b0 :: r0 =>
      if (b0 <? 128)%N then b0 :: utf8_decode r0
      else
        match r0 with
        | [] => []
        | b1 :: r1 =>
            if (b0 <? 224)%N
            then ((b0 - 192) * 64 + (b1 - 128))%N :: utf8_decode r1
            else
              match r1 with
              | [] => []
              | b2 :: r2 =>
                  if (b0 <? 240)%N
                  then ((b0 - 224) * 4096 + (b1 - 128) * 64 + (b2 - 128))%N
                       :: utf8_decode r2
                  else
                    match r2 with
                    | [] => []
                    | b3 :: r3 =>
                        ((b0 - 240) * 262144 + (b1 - 128) * 4096
                         + (b2 - 128) * 64 + (b3 - 128))%N
                        :: utf8_decode r3
                    end
              end
        end
  end.

Definition text (s : string) : pystr :=
  utf8_decode (map N_of_ascii (list_ascii_of_string s)).

(** ** explain_classification *)

(** [explanation_system_prompt] *)
Definition explanation_system_prompt : pystr :=
  newline :: unlines [
    text "Du är en tullklassificeringsassistent.";
    text "";
    text "Du får:";
    text "- TARIC-hierarkin för kapitel 30 som JSON";
    text "- Ett produktnamn, en produktbeskrivning, en sammansättning";
    text "- Den valda tullkoden (endast siffror eller UNKNOWN)";
    text "";
    text "Uppgift:";
    text "- Förklara kortfattat på svenska hur man rimligen kan motivera att just denna kod passar produkten.";
    text "- Nämn formen (t.ex. tabletter, lösning, plåster), användning (terapeutisk/profylaktisk/diagnostisk),";
    text "  och viktiga kännetecken från beskrivningen som pekar mot kapitel 30 och den aktuella rubriken.";
    text "- Svara med 2–4 meningar.";
    text "- Om koden är UNKNOWN, förklara kort att produkten inte kan klassificeras i kapitel 30 utifrån uppgifterna."
  ].

(** The variables of the explanation template. *)
Record ExplanationInput := {
  e_json : pystr;
  e_code : pystr;
  e_name : pystr;
  e_desc : pystr;
  e_composition : pystr
}.

Definition explanation_user_message (i : ExplanationInput) : pystr :=
  str "JSON:" ++ [newline] ++ e_json i ++ [newline; newline]
  ++ str "Vald tullkod: " ++ e_code i ++ [newline; newline]
  ++ str "Produktnamn: " ++ e_name i ++ [newline]
  ++ str "Produktbeskrivning: " ++ e_desc i ++ [newline]
  ++ text "Produktsammansättning / substanser: " ++ e_composition i.

Definition explanation_prompt (i : ExplanationInput) : Messages :=
  {| system := explanation_system_prompt; user := explanation_user_message i |}.

Section Explanation.

Variable E : Type.
Variable taric_text : pystr.

(** The second completion service, with the output parser. *)
Variable explanation_llm : Messages -> result E pystr.

Definition explanation_input (product_name product_description composition : option pystr)
    (tullkod : pystr) : ExplanationInput :=
  {| e_json := taric_text;
     e_code := tullkod;
     e_name := or_empty product_name;
     e_desc := or_empty product_description;
     e_composition := or_empty composition |}.

Definition explanation_chain (i : ExplanationInput) : result E pystr :=
  explanation_llm (explanation_prompt i).

Definition explain_classification
    (product_name product_description composition : option pystr) (tullkod : pystr)
  : result E pystr :=
  explanation_chain (explanation_input product_name product_description composition tullkod).

End Explanation.

(** ** What a run of the script shows *)

(** The elements a run puts on the page, in order. *)
Inductive element : Type :=
| st_warning (body : pystr)
| st_success (body : pystr)
| st_error (body : pystr)
| st_markdown (body : pystr).

(** A piece of the script: the elements shown so far and how it ended. An
    exception ends the run; what was shown before it stays on the page. *)
Definition Run (E A : Type) : Type := (list element * result E A)%type.

Definition show {E : Type} (el : element) : Run E unit := ([el], Ok tt).

Definition lift {E A : Type} (r : result E A) : Run E A := ([], r).

Definition run_bind {E A B : Type} (c : Run E A) (k : A -> Run E B) : Run E B :=
  match c with
  | (shown, Ok a) => let (shown', r) := k a in (shown ++ shown', r)
  | (shown, Raise e) => (shown, Raise e)
  end.

Notation "x <~ c ;; k" := (run_bind c (fun x => k))
  (at level 61, c at next level, right associativity).

(** Truth of a text in a condition: it is not empty. *)
Definition truthy (s : pystr) : bool :=
  match s with
  | [] => false
  | _ => true
  end.

(** ** The tab for a single product *)

Definition unknown_explanation : pystr :=
  text "**AI-explanation:** Produkten kunde inte säkert klassificeras inom kapitel 30 utifrån den information som angavs.".

Definition tulltaxan_link_code : pystr :=
  text "[🔗 Öppna Tulltaxan för att kontrollera koden](https://tulltaxan.tullverket.se/ite-tariff-public/#/taric/nomenclature/sbn?sd=2025-10-22&d=I&l=sv&ql=sv)".

Section TabSingle.

Context {U : CharClasses}.
Variable E : Type.
Variable taric_text : pystr.
Variable llm : Messages -> result E pystr.
Variable explanation_llm : Messages -> result E pystr.

(** The body of [if st.button("Generate code", ...)], with the values of the
    three input widgets (texts, never [None]). *)
Definition tab_single_generate (product_name product_description composition : pystr)
  : Run E unit :=
  if negb (truthy product_name || truthy product_description || truthy composition)
  then show (st_warning (str "Fill in at least one field before generating."))
  else
    tullkod <~ lift (classify_product taric_text llm (Some product_name)
                       (Some product_description) (Some composition)) ;;
    _ <~ show (st_success (str "Customs code: **" ++ tullkod ++ str "**")) ;;
    explanation <~ lift (explain_classification taric_text explanation_llm
                           (Some product_name) (Some product_description)
                           (Some composition) tullkod) ;;
    _ <~ (if negb (pystr_eqb tullkod (str "UNKNOWN"))
          then show (st_markdown (str "**AI-explanation:** " ++ explanation))
          else show (st_markdown unknown_explanation)) ;;
    show (st_markdown tulltaxan_link_code).

End TabSingle.

(** ** Login *)

(** [APP_USERNAME] and [APP_PASSWORD]: [os.getenv] gives [None] for a
    variable that is not set. *)
Record Credentials := {
  APP_USERNAME : option pystr;
  APP_PASSWORD : option pystr
}.

(** [s == v] for a text [s] and an optional text [v]. *)
Definition eq_optional (s : pystr) (v : option pystr) : bool :=
  match v with
  | Some x => pystr_eqb s x
  | None => false
  end.

(** [st.session_state]: the key "logged_in", absent or bound. *)
Definition SessionState := option bool.

(** The widgets of the login page in one run: the two text inputs and
    whether the button was the one pressed. *)
Record LoginWidgets := {
  w_user : pystr;
  w_pwd : pystr;
  w_login_button : bool
}.

(** How a run of the script ends: [st.rerun()] in [login], [st.stop()]
    after the login page (with the errors shown on it), or the main
    content. *)
Inductive page : Type :=
| Rerun
| LoginPage (errors : list element)
| MainContent.

Definition login (env : Credentials) (w : LoginWidgets) (s : SessionState)
  : SessionState * page :=
  if w_login_button w then
    if eq_optional (w_user w) (APP_USERNAME env) && eq_optional (w_pwd w) (APP_PASSWORD env)
    then (Some true, Rerun)
    else (s, LoginPage [st_error (str "Wrong username.")])
  else (s, LoginPage []).

(** One execution of the script from the top. *)
Definition script_once (env : Credentials) (w : LoginWidgets) (s : SessionState)
  : SessionState * page :=
  let s1 := match s with None => Some false | Some _ => s end in
  match s1 with
  | Some true => (s1, MainContent)
  | _ => login env w s1
  end.

(** One interaction: the script runs, and runs again from the top when it
    asked for a rerun (the button is then no longer pressed). *)
Definition script_run (env : Credentials) (w : LoginWidgets) (s : SessionState)
  : SessionState * page :=
  match script_once env w s with
  | (s', Rerun) =>
      script_once env {| w_user := w_user w; w_pwd := w_pwd w; w_login_button := false |} s'
  | r => r
  end.

(** A browser session: the interactions in order, from a fresh session
    state; the pages they end on. *)
Fixpoint session_from (env : Credentials) (s : SessionState) (ws : list LoginWidgets)
  : list page :=
  match ws with
  | [] => []
  | w :: ws' =>
      let (s', p) := script_run env w s in p :: session_from env s' ws'
  end.

Definition session (env : Credentials) (ws : list LoginWidgets) : list page :=
  session_from env None ws.

(** The attempt that [login] accepts. *)
Definition accepted_attempt (env : Credentials) (w : LoginWidgets) : bool :=
  w_login_button w
  && eq_optional (w_user w) (APP_USERNAME env) && eq_optional (w_pwd w) (APP_PASSWORD env).

(** ** The tab for a spreadsheet *)

(** [desc_default] and [comp_default], from the number of columns. *)
Definition desc_default (ncols : nat) : nat := if 1 <? ncols then 1 else 0.

Definition comp_default (ncols : nat) : nat :=
  if 2 <? ncols then 2 else desc_default ncols.

(** Table objects: [cells] holds the table at each address, addresses
    below [next] are in use. *)
Record Heap := { next : nat; cells : nat -> DataFrame }.

(** [df.copy()] *)
Definition df_copy (h : Heap) (df : nat) : Heap * nat :=
  ({| next := S (next h);
      cells := fun r => if r =? next h then cells h df else cells h r |},
   next h).

Section TabBulk.

Context {U : CharClasses}.
Variable E : Type.
Variable taric_text : pystr.
Variable llm : Messages -> result E pystr.

(** [add_tullkod_column] on the object it is given: the right-hand side of
    [df[output_col] = df.apply(...)] is computed first, the column is then
    set in that same object, which is what is returned. *)
Definition add_tullkod_column_object (h : Heap) (df : nat)
    (name_col desc_col comp_col output_col : pystr) : Heap * result E nat :=
  match df_apply_rows (_classify_row taric_text llm name_col desc_col comp_col) (cells h df) with
  | Ok codes =>
      ({| next := next h;
          cells := fun r => if r =? df
                            then df_setitem (cells h df) output_col (map CellStr codes)
                            else cells h r |},
       Ok df)
  | Raise e => (h, Raise e)
  end.

(** The body of [if st.button("Generate customs codes for all records", ...)]
    up to the message of success: the classification of a copy. *)
Definition tab_bulk_generate (h : Heap) (df : nat) (name_col desc_col comp_col : pystr)
  : Heap * Run E nat :=
  let (h1, copy) := df_copy h df in
  let (h2, r) := add_tullkod_column_object h1 copy name_col desc_col comp_col
                   (str "Customs code") in
  (h2, result_df <~ lift r ;;
       _ <~ show (st_success (str "Classification is completed!")) ;;
       ([], Ok result_df)).

End TabBulk.

(** * Definitions used to state the claims *)

(** ** Runs of ten digits, as the specification and as the code bound them *)

Fixpoint last_error {A : Type} (l : list A) : option A :=
  match l with
  | [] => None
  | [x] => Some x
  | _ :: l' => last_error l'
  end.

(** What may stand next to a run: nothing (the text ends there) or a
    character that [sep] accepts. *)
Definition edge (sep : char -> bool) (c : option char) : bool :=
  match c with
  | None => true
  | Some x => sep x
  end.

Section Runs.

Context {U : CharClasses}.

Definition run10_at (sep : char -> bool) (text : pystr) (i : nat) (run : pystr) : Prop :=
  exists pre post,
    text = pre ++ run ++ post /\ length pre = i /\ length run = 10
    /\ forallb isdecimal run = true
    /\ edge sep (last_error pre) = true /\ edge sep (hd_error post) = true.

(** The specification's words: ten digits between non-digits or the ends of
    the text. *)
Definition nondigit (c : char) : bool := negb (isdecimal c).

Definition digit_bounded_run : pystr -> nat -> pystr -> Prop := run10_at nondigit.

(** What [\b\d{10}\b] matches: ten digits between non-word characters or
    the ends of the text. *)
Definition nonword (c : char) : bool := negb (isword c).

Definition word_bounded_run : pystr -> nat -> pystr -> Prop := run10_at nonword.

End Runs.

(** The accepted lengths as the specification lists them. *)
Definition accepted_set : list nat := [2; 4; 6; 8; 10].

(** The same for a length outside the accepted set, up to 12. *)
Definition lenient_set : list nat := [1; 3; 5; 7; 9; 11; 12].

(** The branches of [normalize_code]. *)

Section Branches.

Context {U : CharClasses}.

(** The five ways [normalize_code] leaves on a text, in the order of the
    source. *)
Inductive outcome (t : pystr) : pystr -> Prop :=
| out_no_digits :
    re_sub_nondigits t = [] -> outcome t UNKNOWN
| out_accepted :
    In (length (re_sub_nondigits t)) accepted_lengths ->
    outcome t (re_sub_nondigits t)
| out_run (m : Match) :
    re_sub_nondigits t <> [] ->
    ~ In (length (re_sub_nondigits t)) accepted_lengths ->
    re_search_10 t = Some m -> outcome t (m_group m)
| out_lenient :
    re_sub_nondigits t <> [] ->
    ~ In (length (re_sub_nondigits t)) accepted_lengths ->
    re_search_10 t = None -> length (re_sub_nondigits t) <= 12 ->
    outcome t (re_sub_nondigits t)
| out_too_long :
    ~ In (length (re_sub_nondigits t)) accepted_lengths ->
    re_search_10 t = None -> 12 < length (re_sub_nondigits t) ->
    outcome t UNKNOWN.

End Branches.

(** Two classifications agree on a character. *)
Definition agree (U V : CharClasses) (c : char) : Prop :=
  @isdecimal U c = @isdecimal V c /\ @isword U c = @isword V c.

(** A text below 128. *)
Definition is_ascii (t : pystr) : bool := forallb (fun c => (c <? 128)%N) t.

(** [edge] for a character below 128. *)
Definition ascii_edge (sep : char -> bool) (o : option char) : bool :=
  match o with
  | Some c => (c <? 128)%N && sep c
  | None => true
  end.

(** A small table: three products under the columns Namn, Beskrivning and
    Substans. *)
Definition demo_row (name desc comp : cell) : Series :=
  [(str "Namn", name); (str "Beskrivning", desc); (str "Substans", comp)].

Definition demo_row1 : Series :=
  demo_row (CellStr (str "Alvedon")) (CellStr (str "tabletter")) (CellStr (str "paracetamol")).
Definition demo_row2 : Series :=
  demo_row (CellStr (str "Ipren")) (CellStr (str "tabletter")) (CellStr (str "ibuprofen")).
Definition demo_row3 : Series :=
  demo_row (CellStr (str "Voltaren")) (CellStr (str "gel")) (CellStr (str "diklofenak")).

Definition demo_taric : pystr := str "[]".

(** A service that answers every request with [answer], except the request
    for [bad], on which it raises. *)
Definition service_down_on (bad : Series) (answer : pystr) (m : Messages)
  : result pystr pystr :=
  if pystr_eqb (user m)
       (user_message (row_input demo_taric (str "Namn") (str "Beskrivning") (str "Substans") bad))
  then Raise (str "ServiceUnavailable")
  else Ok answer.

(** A sheet of numbers: three columns of whole numbers and a fourth
    column. *)
Definition numeric_row (art styrka antal : Z) (pris : cell) : Series :=
  [(str "Art", CellInt art); (str "Styrka", CellInt styrka);
   (str "Antal", CellInt antal); (str "Pris", pris)].

(** Two sheets with the same first row: in the first the fourth column
    holds floats, in the second it holds a text in the second row. *)
Definition sheet_of_numbers : DataFrame :=
  [numeric_row 3004 500 20 (CellFloat (str "1.5"));
   numeric_row 3005 250 10 (CellFloat (str "2.5"))].

Definition sheet_with_a_text : DataFrame :=
  [numeric_row 3004 500 20 (CellFloat (str "1.5"));
   numeric_row 3005 250 10 (CellStr (str "saknas"))].

(** The request for the product 3004, 500, 20. *)
Definition request_3004 : PromptInput :=
  {| p_json := demo_taric; p_name := str "3004"; p_desc := str "500";
     p_composition := str "20" |}.

(** A service that has an answer for one request and none for the
    others. *)
Definition service_knows (known : PromptInput) (answer : pystr) (m : Messages)
  : result pystr pystr :=
  if pystr_eqb (user m) (user_message known) then Ok answer else Ok (str "UNKNOWN").

(** A service that is always up. *)
Definition service_up (answer : pystr) (m : Messages) : result pystr pystr := Ok answer.

(** A classification service that never finds a code, and an explanation
    service that is down. *)
Definition service_no_code (m : Messages) : result pystr pystr :=
  Ok (str "UNKNOWN").

Definition service_down (m : Messages) : result pystr pystr :=
  Raise (str "ServiceUnavailable").

(** The session state says the user is logged in. *)
Definition logged_in (s : SessionState) : bool :=
  match s with
  | Some true => true
  | _ => false
  end.

(** A heap with one table, the uploaded one. *)
Definition demo_heap : Heap :=
  {| next := 1; cells := fun _ => [demo_row1; demo_row3] |}.

(** What a code is after normalisation: the sentinel, or one to twelve
    decimal digits. *)
Definition sentinel_or_digits {U : CharClasses} (code : pystr) : Prop :=
  code = UNKNOWN \/ (code <> [] /\ forallb isdecimal code = true /\ length code <= 12).

(** An explanation service that is down on the request for [code] and
    answers every other request with [answer]. *)
Definition explanation_down_on (code answer : pystr) (m : Messages) : result pystr pystr :=
  if pystr_eqb (user m)
       (explanation_user_message
          (explanation_input demo_taric (Some (str "Alvedon")) (Some []) (Some []) code))
  then Raise (str "ServiceUnavailable")
  else Ok answer.

(** * Facts *)

Example normalize_plain :
  normalize_code (Some (str "1234567890")) = str "1234567890".
Proof. reflexivity. Qed.

Example normalize_embedded :
  normalize_code (Some (str "The code is 3004909099.")) = str "3004909099".
Proof. reflexivity. Qed.

Example normalize_prose :
  normalize_code (Some (str "I cannot determine this")) = UNKNOWN.
Proof. reflexivity. Qed.

Example normalize_blank :
  normalize_code (Some (str "   ")) = UNKNOWN /\ normalize_code (Some []) = UNKNOWN
  /\ normalize_code None = UNKNOWN.
Proof. repeat split. Qed.

Example normalize_14 :
  normalize_code (Some (str "12345678901234")) = UNKNOWN.
Proof. reflexivity. Qed.

Example normalize_glued :
  normalize_code (Some (str "nr3004909099, kapitel 30")) = str "300490909930".
Proof. reflexivity. Qed.

(** Digits beyond ASCII are digits to [\d]: two Arabic-Indic digits are a
    code of length two. *)
Example normalize_arabic_indic :
  @normalize_code sample_classes (Some [1635%N; 1632%N]) = [1635%N; 1632%N].
Proof. reflexivity. Qed.

(** A letter beyond ASCII is a word character: no [\b] between it and a
    digit. *)
Example normalize_after_a_umlaut :
  @normalize_code sample_classes (Some (228%N :: str "3004909099 1")) = str "30049090991"
  /\ @normalize_code sample_classes (Some (247%N :: str "3004909099 1")) = str "3004909099".
Proof. split; reflexivity. Qed.

(** ** Basic facts *)

Lemma last_error_snoc (A : Type) (l : list A) (x : A) : last_error (l ++ [x]) = Some x.
Proof.
  induction l as [|a l IH]; [reflexivity|].
  simpl. destruct (l ++ [x]) eqn:E; [destruct l; discriminate|exact IH].
Qed.

Lemma last_error_cons (A : Type) (a : A) (l : list A) :
  l <> [] -> last_error (a :: l) = last_error l.
Proof. destruct l; [congruence|reflexivity]. Qed.

Lemma last_error_In (A : Type) (l : list A) (x : A) : last_error l = Some x -> In x l.
Proof.
  induction l as [|a l IH]; [discriminate|].
  destruct l as [|b l].
  - simpl. intros [= ->]. now left.
  - intros H. right. apply IH. exact H.
Qed.

Lemma first_length_match_some (ks : list nat) (d r : pystr) :
  first_length_match ks d = Some r -> r = d /\ In (length d) ks.
Proof.
  induction ks as [|k ks IH]; simpl; [discriminate|].
  destruct (length d =? k) eqn:E.
  - intros [= <-]. apply Nat.eqb_eq in E. auto.
  - intros H. destruct (IH H). auto.
Qed.

Lemma first_length_match_in (ks : list nat) (d : pystr) :
  In (length d) ks -> first_length_match ks d = Some d.
Proof.
  induction ks as [|k ks IH]; simpl; [tauto|].
  destruct (length d =? k) eqn:E; [reflexivity|].
  apply Nat.eqb_neq in E. intros [H|H]; [congruence|auto].
Qed.

Lemma first_length_match_none (ks : list nat) (d : pystr) :
  ~ In (length d) ks -> first_length_match ks d = None.
Proof.
  intros H. destruct (first_length_match ks d) eqn:E; [|reflexivity].
  apply first_length_match_some in E. tauto.
Qed.

Section Facts.

Context {U : CharClasses}.

Lemma re_sub_nondigits_decimal (t : pystr) :
  forallb isdecimal (re_sub_nondigits t) = true.
Proof.
  apply forallb_forall. intros c H. apply filter_In in H. tauto.
Qed.

Lemma re_sub_nondigits_fixed (d : pystr) :
  forallb isdecimal d = true -> re_sub_nondigits d = d.
Proof.
  unfold re_sub_nondigits. induction d as [|c d IH]; simpl; [reflexivity|].
  intros H. apply andb_true_iff in H as [Hc Hd]. rewrite Hc, IH; auto.
Qed.

Lemma str_isdigit_decimal (d : pystr) :
  d <> [] -> forallb isdecimal d = true -> str_isdigit d = true.
Proof.
  intros Hne H. destruct d as [|c d]; [congruence|].
  unfold str_isdigit. apply forallb_forall. intros x Hx.
  apply isdecimal_isdigit. rewrite forallb_forall in H. auto.
Qed.

Lemma decimal_opt_word (l : pystr) (c : char) :
  forallb isdecimal l = true -> In c l -> isword c = true.
Proof.
  intros H Hc. apply isdecimal_isword. rewrite forallb_forall in H. auto.
Qed.

Lemma at_boundary_after (prev : option char) (c : char) :
  isword c = true -> at_boundary prev (Some c) = edge nonword prev.
Proof.
  intros H. unfold at_boundary, edge, nonword, opt_word. rewrite H.
  destruct prev as [p|]; [destruct (isword p)|]; reflexivity.
Qed.

Lemma at_boundary_before (c : char) (next : option char) :
  isword c = true -> at_boundary (Some c) next = edge nonword next.
Proof.
  intros H. unfold at_boundary, edge, nonword, opt_word. rewrite H.
  destruct next as [p|]; [destruct (isword p)|]; reflexivity.
Qed.

Lemma firstn_length_app (A : Type) (g post : list A) (n : nat) :
  length g = n -> firstn n (g ++ post) = g /\ skipn n (g ++ post) = post.
Proof.
  intros <-. split.
  - rewrite firstn_app, Nat.sub_diag, firstn_all. apply app_nil_r.
  - rewrite skipn_app, Nat.sub_diag, skipn_all. reflexivity.
Qed.

(** An attempt of the pattern succeeds exactly on a word-bounded run. *)
Lemma match_here_spec (prev : option char) (rest g : pystr) :
  match_here prev rest = Some g <->
  exists post, rest = g ++ post /\ length g = 10 /\ forallb isdecimal g = true
    /\ edge nonword prev = true /\ edge nonword (hd_error post) = true.
Proof.
  unfold match_here. cbv zeta. split.
  - destruct (at_boundary prev (hd_error rest)) eqn:B1; [|discriminate].
    destruct (length (firstn 10 rest) =? 10) eqn:L; [|discriminate].
    destruct (forallb isdecimal (firstn 10 rest)) eqn:D; [|discriminate].
    cbn [andb].
    destruct (at_boundary (nth_error (firstn 10 rest) 9) (hd_error (skipn 10 rest))) eqn:B2;
      [|discriminate].
    intros H. assert (G : firstn 10 rest = g) by congruence. clear H.
    apply Nat.eqb_eq in L.
    assert (Hw : forall c, In c (firstn 10 rest) -> isword c = true)
      by (intros c; apply decimal_opt_word; exact D).
    exists (skipn 10 rest).
    split; [rewrite <- G; exact (eq_sym (firstn_skipn 10 rest))|].
    split; [rewrite <- G; exact L|]. split; [rewrite <- G; exact D|].
    split.
    + destruct (hd_error rest) as [c|] eqn:Hh.
      * rewrite at_boundary_after in B1; [exact B1|].
        apply Hw. destruct rest as [|r rest]; [discriminate Hh|].
        injection Hh as ->. rewrite firstn_cons. now left.
      * destruct rest; [discriminate L|discriminate Hh].
    + destruct (nth_error (firstn 10 rest) 9) as [c|] eqn:N.
      * rewrite at_boundary_before in B2; [exact B2|].
        apply Hw. eapply nth_error_In. exact N.
      * apply nth_error_None in N. lia.
  - intros (post & -> & L & D & E1 & E2).
    destruct (firstn_length_app g post L) as [F S].
    assert (Hw : forall c, In c g -> isword c = true)
      by (intros c; apply decimal_opt_word; exact D).
    rewrite F, S, L, D. cbn [Nat.eqb andb].
    destruct g as [|c g]; [discriminate L|].
    change (hd_error ((c :: g) ++ post)) with (Some c).
    rewrite at_boundary_after, E1 by (apply Hw; now left).
    destruct (nth_error (c :: g) 9) as [z|] eqn:N.
    + rewrite at_boundary_before, E2 by (apply Hw; eapply nth_error_In; exact N).
      reflexivity.
    + apply nth_error_None in N. lia.
Qed.


Lemma app_eq_length (A : Type) (a b c d : list A) :
  a ++ b = c ++ d -> length a = length c -> a = c /\ b = d.
Proof.
  revert c. induction a as [|x a IH]; intros [|y c] H L; try discriminate L.
  - auto.
  - simpl in H. injection H as -> H. injection L as L.
    destruct (IH c H L) as [-> ->]. auto.
Qed.

(** The run at a position, if there is one, is what an attempt there finds. *)
Lemma word_bounded_run_here (pre rest run : pystr) :
  word_bounded_run (pre ++ rest) (length pre) run <->
  match_here (last_error pre) rest = Some run.
Proof.
  rewrite match_here_spec. unfold word_bounded_run, run10_at. split.
  - intros (pre' & post & E & L & Hr).
    destruct (app_eq_length _ _ _ _ E (eq_sym L)) as [<- ->].
    exists post. tauto.
  - intros (post & -> & Hr). exists pre, post. tauto.
Qed.

Lemma word_bounded_run_unique (text run run' : pystr) (i : nat) :
  word_bounded_run text i run -> word_bounded_run text i run' -> run = run'.
Proof.
  intros (pre & post & -> & L & Hr) H'. subst i.
  apply word_bounded_run_here in H'.
  assert (H : match_here (last_error pre) (run ++ post) = Some run)
    by (apply match_here_spec; exists post; tauto).
  congruence.
Qed.

Lemma search_from_snoc (pre : pystr) (c : char) (rest : pystr) :
  search_from (S (length pre)) (Some c) rest
  = search_from (length (pre ++ [c])) (last_error (pre ++ [c])) rest.
Proof.
  rewrite last_error_snoc, length_app, Nat.add_1_r. reflexivity.
Qed.

(** A successful search returns the leftmost word-bounded run. *)
Lemma search_from_some (rest pre : pystr) (m : Match) :
  search_from (length pre) (last_error pre) rest = Some m ->
  word_bounded_run (pre ++ rest) (m_start m) (m_group m)
  /\ forall j run, length pre <= j -> word_bounded_run (pre ++ rest) j run ->
       m_start m <= j.
Proof.
  revert pre. induction rest as [|c rest IH]; intros pre; simpl;
    destruct (match_here (last_error pre) _) as [g|] eqn:M.
  - intros [= <-]. simpl. split; [apply word_bounded_run_here; exact M|auto].
  - discriminate.
  - intros [= <-]. simpl. split; [apply word_bounded_run_here; exact M|auto].
  - rewrite search_from_snoc. intros H. apply IH in H as [H1 H2].
    rewrite <- app_assoc in H1, H2. simpl in H1, H2. split; [exact H1|].
    intros j run Lj Hj. destruct (Nat.eq_dec j (length pre)) as [->|Ne].
    + apply word_bounded_run_here in Hj. congruence.
    + apply (H2 j run); [|exact Hj]. rewrite length_app. simpl. lia.
Qed.

(** A failed search means there is no word-bounded run at all. *)
Lemma search_from_none (rest pre : pystr) :
  search_from (length pre) (last_error pre) rest = None ->
  forall j run, length pre <= j -> ~ word_bounded_run (pre ++ rest) j run.
Proof.
  revert pre. induction rest as [|c rest IH]; intros pre; simpl;
    destruct (match_here (last_error pre) _) as [g|] eqn:M; try discriminate.
  - intros _ j run Lj (pre' & post & E & L & L10 & _).
    apply (f_equal (@Datatypes.length char)) in E.
    rewrite !length_app in E. simpl in E. lia.
  - rewrite search_from_snoc. intros H j run Lj Hj.
    destruct (Nat.eq_dec j (length pre)) as [->|Ne].
    + apply word_bounded_run_here in Hj. congruence.
    + apply (IH _ H j run).
      * rewrite length_app. simpl. lia.
      * rewrite <- app_assoc. exact Hj.
Qed.

Lemma re_search_10_some (text : pystr) (m : Match) :
  re_search_10 text = Some m ->
  word_bounded_run text (m_start m) (m_group m)
  /\ forall j run, word_bounded_run text j run -> m_start m <= j.
Proof.
  intros H. destruct (search_from_some text [] H) as [H1 H2].
  split; [exact H1|]. intros j run. apply H2. simpl. lia.
Qed.

Lemma re_search_10_none (text : pystr) :
  re_search_10 text = None -> forall j run, ~ word_bounded_run text j run.
Proof.
  intros H j run. apply (search_from_none text [] H). simpl. lia.
Qed.

Lemma re_search_10_finds (text : pystr) (j : nat) (run : pystr) :
  word_bounded_run text j run -> exists m, re_search_10 text = Some m.
Proof.
  intros H. destruct (re_search_10 text) as [m|] eqn:E; [eauto|].
  exfalso. exact (re_search_10_none E H).
Qed.

End Facts.

(** ** The classification matters only on the characters of the text *)

Section Agreement.

Variables U V : CharClasses.

Lemma opt_word_agree (o : option char) :
  (forall c, o = Some c -> agree U V c) -> @opt_word U o = @opt_word V o.
Proof. destruct o as [c|]; [intros H; apply (H c eq_refl)|reflexivity]. Qed.

Lemma at_boundary_agree (a b : option char) :
  (forall c, a = Some c -> agree U V c) -> (forall c, b = Some c -> agree U V c) ->
  @at_boundary U a b = @at_boundary V a b.
Proof.
  intros Ha Hb. unfold at_boundary.
  rewrite (opt_word_agree Ha), (opt_word_agree Hb). reflexivity.
Qed.

Lemma forallb_isdecimal_agree (l : pystr) :
  (forall c, In c l -> agree U V c) ->
  forallb (@isdecimal U) l = forallb (@isdecimal V) l.
Proof.
  induction l as [|x l IH]; intros H; simpl; [reflexivity|].
  rewrite IH by (intros c Hc; apply H; now right).
  destruct (H x (or_introl eq_refl)) as [-> _]. reflexivity.
Qed.

Lemma filter_isdecimal_agree (l : pystr) :
  (forall c, In c l -> agree U V c) ->
  @re_sub_nondigits U l = @re_sub_nondigits V l.
Proof.
  unfold re_sub_nondigits.
  induction l as [|x l IH]; intros H; simpl; [reflexivity|].
  rewrite IH by (intros c Hc; apply H; now right).
  destruct (H x (or_introl eq_refl)) as [-> _]. reflexivity.
Qed.

Lemma In_firstn (A : Type) (n : nat) (l : list A) (x : A) :
  In x (firstn n l) -> In x l.
Proof.
  intros H. rewrite <- (firstn_skipn n l). apply in_or_app. now left.
Qed.

Lemma In_skipn (A : Type) (n : nat) (l : list A) (x : A) :
  In x (skipn n l) -> In x l.
Proof.
  intros H. rewrite <- (firstn_skipn n l). apply in_or_app. now right.
Qed.

Lemma hd_error_In (A : Type) (l : list A) (x : A) : hd_error l = Some x -> In x l.
Proof. destruct l; [discriminate|]. intros [= ->]. now left. Qed.

Lemma match_here_agree (prev : option char) (rest : pystr) :
  (forall c, prev = Some c -> agree U V c) -> (forall c, In c rest -> agree U V c) ->
  @match_here U prev rest = @match_here V prev rest.
Proof.
  intros Hp Hr. unfold match_here. cbv zeta.
  rewrite (@at_boundary_agree prev (hd_error rest)); auto using hd_error_In.
  rewrite (@forallb_isdecimal_agree (firstn 10 rest)); eauto using In_firstn.
  rewrite (@at_boundary_agree (nth_error (firstn 10 rest) 9) (hd_error (skipn 10 rest)));
    eauto using In_firstn, In_skipn, hd_error_In, nth_error_In.
Qed.

Lemma search_from_agree (rest : pystr) (pos : nat) (prev : option char) :
  (forall c, prev = Some c -> agree U V c) -> (forall c, In c rest -> agree U V c) ->
  @search_from U pos prev rest = @search_from V pos prev rest.
Proof.
  revert pos prev. induction rest as [|x rest IH]; intros pos prev Hp Hr; simpl;
    rewrite (match_here_agree _ Hp Hr); [reflexivity|].
  destruct (@match_here V prev (x :: rest)); [reflexivity|].
  apply IH.
  - intros c [= <-]. apply Hr. now left.
  - intros c Hc. apply Hr. now right.
Qed.

Lemma normalize_code_agree (t : pystr) :
  (forall c, In c t -> agree U V c) ->
  @normalize_code U (Some t) = @normalize_code V (Some t).
Proof.
  intros H. unfold normalize_code. destruct t as [|x t]; [reflexivity|].
  cbv zeta. rewrite (filter_isdecimal_agree _ H).
  destruct (@re_sub_nondigits V (x :: t)) as [|d ds] eqn:D; [reflexivity|].
  destruct (first_length_match accepted_lengths (d :: ds)); [reflexivity|].
  unfold re_search_10. rewrite (@search_from_agree (x :: t) 0 None);
    [|discriminate|exact H].
  destruct (@search_from V 0 None (x :: t)); [reflexivity|].
  assert (Hd : forallb (@isdecimal V) (d :: ds) = true)
    by (rewrite <- D; apply re_sub_nondigits_decimal).
  assert (Hu : forallb (@isdecimal U) (d :: ds) = true).
  { rewrite <- Hd. apply forallb_isdecimal_agree. intros c Hc. apply H.
    rewrite <- D in Hc. apply filter_In in Hc. tauto. }
  rewrite (@str_isdigit_decimal U), (@str_isdigit_decimal V);
    auto; discriminate.
Qed.

End Agreement.

(** On text below 128 every classification computes what [ascii_classes]
    computes. *)
Lemma normalize_code_ascii (U : CharClasses) (t : pystr) :
  is_ascii t = true ->
  @normalize_code U (Some t) = @normalize_code ascii_classes (Some t).
Proof.
  intros H. apply normalize_code_agree. intros c Hc.
  unfold is_ascii in H. rewrite forallb_forall in H.
  specialize (H c Hc). apply N.ltb_lt in H.
  split; [apply isdecimal_ascii|apply isword_ascii]; exact H.
Qed.

Ltac ascii_normalize :=
  rewrite normalize_code_ascii by reflexivity; vm_compute; reflexivity.

(** ** The branches of normalize_code *)

Section Outcome.

Context {U : CharClasses}.

Lemma normalize_code_outcome (t : pystr) : outcome t (normalize_code (Some t)).
Proof.
  unfold normalize_code. destruct t as [|x t]; [now apply out_no_digits|].
  cbv zeta. set (text := x :: t).
  destruct (re_sub_nondigits text) as [|d ds] eqn:D.
  - apply out_no_digits. exact D.
  - rewrite <- D.
    assert (Hne : re_sub_nondigits text <> []) by (rewrite D; discriminate).
    destruct (in_dec Nat.eq_dec (length (re_sub_nondigits text)) accepted_lengths)
      as [Hin|Hout].
    + rewrite (first_length_match_in _ _ Hin). now apply out_accepted.
    + rewrite (first_length_match_none _ _ Hout).
      destruct (re_search_10 text) as [m|] eqn:S; [now apply out_run|].
      rewrite str_isdigit_decimal by (auto using re_sub_nondigits_decimal).
      cbn [andb]. destruct (length (re_sub_nondigits text) <=? 12) eqn:L.
      * apply Nat.leb_le in L. now apply out_lenient.
      * apply Nat.leb_gt in L. now apply out_too_long.
Qed.

Lemma run10_at_shape (sep : char -> bool) (t : pystr) (i : nat) (run : pystr) :
  run10_at sep t i run ->
  length run = 10 /\ forallb isdecimal run = true /\ run = firstn 10 (skipn i t).
Proof.
  intros (pre & post & -> & <- & L & D & _). split; [exact L|]. split; [exact D|].
  rewrite skipn_app, skipn_all, Nat.sub_diag. cbn [app skipn].
  destruct (firstn_length_app run post L) as [-> _]. reflexivity.
Qed.

Lemma run10_at_digits (sep : char -> bool) (t : pystr) (i : nat) (run : pystr) :
  run10_at sep t i run -> re_sub_nondigits t <> [].
Proof.
  intros (pre & post & -> & _ & L & D & _). unfold re_sub_nondigits.
  rewrite !filter_app. fold (re_sub_nondigits run).
  rewrite (re_sub_nondigits_fixed _ D).
  destruct run; [discriminate L|]. destruct (filter isdecimal pre); discriminate.
Qed.

(** In a text of digits only the pattern can match nothing but the whole
    text. *)
Lemma word_bounded_run_all_digits (d run : pystr) (i : nat) :
  forallb isdecimal d = true -> word_bounded_run d i run -> d = run.
Proof.
  intros D (pre & post & -> & _ & _ & _ & E1 & E2).
  assert (W : forall c, In c (pre ++ run ++ post) -> nonword c = false).
  { intros c Hc. unfold nonword. rewrite (decimal_opt_word _ _ D Hc). reflexivity. }
  destruct (last_error pre) as [p|] eqn:P.
  - simpl in E1. rewrite W in E1; [discriminate|].
    apply in_or_app. left. apply last_error_In. exact P.
  - destruct (hd_error post) as [q|] eqn:Q.
    + simpl in E2. rewrite W in E2; [discriminate|].
      apply in_or_app. right. apply in_or_app. right. apply hd_error_In. exact Q.
    + destruct post; [|discriminate Q]. destruct pre as [|a pre].
      * simpl. apply app_nil_r.
      * exfalso. clear - P. revert a P. induction pre as [|b pre IH]; intros a P;
          [discriminate|]. apply (IH b). exact P.
Qed.

(** A non-empty text of at most 12 digits is returned as it is. *)
Lemma normalize_code_fixed (d : pystr) :
  d <> [] -> forallb isdecimal d = true -> length d <= 12 ->
  normalize_code (Some d) = d.
Proof.
  intros Hne D L. pose proof (re_sub_nondigits_fixed _ D) as F.
  destruct (normalize_code_outcome d) as [E|Hin|m _ Hout S|_ _ _ _|_ _ L'];
    rewrite F in *; try congruence; try lia.
  exfalso. apply re_search_10_some in S as [S _].
  pose proof (word_bounded_run_all_digits D S) as E.
  apply run10_at_shape in S as [L10 _]. apply Hout. rewrite E, L10. now left.
Qed.

End Outcome.

(** ** Lengths *)

Lemma accepted_set_lengths (n : nat) : In n accepted_set <-> In n accepted_lengths.
Proof. unfold accepted_set, accepted_lengths. simpl. tauto. Qed.

Lemma accepted_set_le (n : nat) : In n accepted_set -> 1 <= n <= 12.
Proof. unfold accepted_set. simpl. lia. Qed.

Lemma lenient_set_spec (n : nat) :
  1 <= n <= 12 -> ~ In n accepted_set -> In n lenient_set.
Proof. unfold accepted_set, lenient_set. simpl. lia. Qed.

Lemma normalize_code_UNKNOWN (U : CharClasses) : normalize_code (Some UNKNOWN) = UNKNOWN.
Proof. ascii_normalize. Qed.

Lemma nonempty_length (A : Type) (l : list A) : l <> [] -> 1 <= length l.
Proof. destruct l; [congruence|simpl; lia]. Qed.

(** Whatever branch is taken, the result is the sentinel or at most 12
    digits. *)
Lemma outcome_short (U : CharClasses) (t r : pystr) :
  outcome t r ->
  r = UNKNOWN \/ (r <> [] /\ forallb isdecimal r = true /\ length r <= 12).
Proof.
  intros [E|Hin|m Hne Hout S|Hne Hout S L|Hout S L]; [now left| | | |now left]; right.
  - apply accepted_set_lengths, accepted_set_le in Hin.
    split; [intros E; rewrite E in Hin; simpl in Hin; lia|].
    split; [apply re_sub_nondigits_decimal|lia].
  - apply re_search_10_some in S as [S _].
    apply run10_at_shape in S as (L & D & _).
    split; [intros E; rewrite E in L; discriminate L|]. split; [exact D|lia].
  - auto using re_sub_nondigits_decimal.
Qed.

(** ** ASCII text under any classification *)

Lemma agree_ascii (U : CharClasses) (t : pystr) :
  is_ascii t = true -> forall c, In c t -> agree U ascii_classes c.
Proof.
  intros H c Hc. unfold is_ascii in H. rewrite forallb_forall in H.
  specialize (H c Hc). apply N.ltb_lt in H.
  split; [apply isdecimal_ascii|apply isword_ascii]; exact H.
Qed.

Lemma re_sub_nondigits_ascii (U : CharClasses) (t : pystr) :
  is_ascii t = true -> @re_sub_nondigits U t = @re_sub_nondigits ascii_classes t.
Proof. intros H. apply filter_isdecimal_agree, agree_ascii, H. Qed.

Lemma forallb_isdecimal_ascii (U : CharClasses) (t : pystr) :
  is_ascii t = true -> forallb (@isdecimal U) t = forallb ascii_decimal t.
Proof.
  intros H. apply (@forallb_isdecimal_agree U ascii_classes), agree_ascii, H.
Qed.

Lemma edge_nondigit_ascii (U : CharClasses) (o : option char) :
  ascii_edge (fun c => negb (ascii_decimal c)) o = true -> edge nondigit o = true.
Proof.
  destruct o as [c|]; [|reflexivity]. simpl. intros H.
  apply andb_true_iff in H as [H1 H2]. apply N.ltb_lt in H1.
  unfold nondigit. rewrite isdecimal_ascii; assumption.
Qed.

Lemma edge_nonword_ascii (U : CharClasses) (o : option char) :
  ascii_edge (fun c => negb (ascii_word c)) o = true -> edge nonword o = true.
Proof.
  destruct o as [c|]; [|reflexivity]. simpl. intros H.
  apply andb_true_iff in H as [H1 H2]. apply N.ltb_lt in H1.
  unfold nonword. rewrite isword_ascii; assumption.
Qed.

(** Settles a run of ten ASCII digits at a given place of an ASCII text. *)
Ltac ascii_run pre post :=
  exists pre, post;
  split; [reflexivity|]; split; [reflexivity|]; split; [reflexivity|];
  split; [rewrite forallb_isdecimal_ascii by reflexivity; reflexivity|];
  split; first [apply edge_nondigit_ascii | apply edge_nonword_ascii];
  reflexivity.

Section RunFacts.

Context {U : CharClasses}.

(** What the pattern matches is in particular a run between non-digits. *)
Lemma word_run_is_digit_run (t : pystr) (i : nat) (run : pystr) :
  word_bounded_run t i run -> digit_bounded_run t i run.
Proof.
  assert (E : forall o, edge nonword o = true -> edge nondigit o = true).
  { intros [c|]; [|reflexivity]. unfold edge, nonword, nondigit.
    destruct (isdecimal c) eqn:D; [|reflexivity].
    rewrite (isdecimal_isword _ D). discriminate. }
  intros (pre & post & H1 & H2 & H3 & H4 & H5 & H6).
  exists pre, post. repeat split; auto.
Qed.

Lemma no_digit_run_no_match (t : pystr) :
  (forall i run, ~ digit_bounded_run t i run) -> re_search_10 t = None.
Proof.
  intros H. destruct (re_search_10 t) as [m|] eqn:S; [|reflexivity].
  apply re_search_10_some in S as [S _]. apply word_run_is_digit_run in S.
  destruct (H _ _ S).
Qed.

Lemma membership_test (n : nat) :
  existsb (Nat.eqb n) accepted_set = true <-> In n accepted_set.
Proof.
  rewrite existsb_exists. split.
  - intros (k & Hk & E). apply Nat.eqb_eq in E. now subst.
  - intros H. exists n. split; [exact H|apply Nat.eqb_refl].
Qed.

End RunFacts.

(** ** Facts about rows and the loop *)

Lemma pystr_eqb_eq (a b : pystr) : pystr_eqb a b = true <-> a = b.
Proof.
  revert b. induction a as [|x a IH]; intros [|y b]; simpl; split;
    try discriminate; try reflexivity.
  - intros H. apply andb_true_iff in H as [H1 H2].
    apply N.eqb_eq in H1. apply IH in H2. congruence.
  - intros [= -> ->]. apply andb_true_iff. split; [apply N.eqb_refl|now apply IH].
Qed.

Lemma pystr_eqb_neq (a b : pystr) : a <> b -> pystr_eqb a b = false.
Proof.
  intros H. destruct (pystr_eqb a b) eqn:E; [|reflexivity].
  apply pystr_eqb_eq in E. contradiction.
Qed.

Lemma series_get_set_same (row : Series) (key : pystr) (v d : cell) :
  series_get (series_set row key v) key d = v.
Proof.
  induction row as [|[k x] row IH]; simpl.
  - rewrite (proj2 (pystr_eqb_eq key key) eq_refl). reflexivity.
  - destruct (pystr_eqb k key) eqn:E; simpl; rewrite E; [reflexivity|exact IH].
Qed.

Lemma series_get_set_other (row : Series) (key c : pystr) (v d : cell) :
  c <> key -> series_get (series_set row key v) c d = series_get row c d.
Proof.
  intros Hc. induction row as [|[k x] row IH]; simpl.
  - rewrite pystr_eqb_neq by congruence. reflexivity.
  - destruct (pystr_eqb k key) eqn:E; simpl.
    + apply pystr_eqb_eq in E. subst k. rewrite pystr_eqb_neq by congruence.
      reflexivity.
    + destruct (pystr_eqb k c); [reflexivity|exact IH].
Qed.


Lemma mapM_ok (E A B : Type) (f : A -> result E B) (l : list A) :
  (forall a, In a l -> exists b, f a = Ok b) ->
  exists bs, mapM f l = Ok bs /\ Forall2 (fun a b => f a = Ok b) l bs.
Proof.
  induction l as [|a l IH]; intros H; simpl.
  - exists []. split; [reflexivity|constructor].
  - destruct (H a (or_introl eq_refl)) as [b Hb].
    destruct IH as (bs & Hbs & F); [intros x Hx; apply H; now right|].
    exists (b :: bs). rewrite Hb, Hbs. split; [reflexivity|now constructor].
Qed.

Lemma mapM_raise (E A B : Type) (f : A -> result E B) (pre : list A) (a : A)
    (post : list A) (e : E) :
  (forall x, In x pre -> exists b, f x = Ok b) -> f a = Raise e ->
  mapM f (pre ++ a :: post) = Raise e.
Proof.
  intros Hpre Ha. induction pre as [|x pre IH]; simpl.
  - rewrite Ha. reflexivity.
  - destruct (Hpre x (or_introl eq_refl)) as [b ->]. simpl.
    rewrite IH by (intros y Hy; apply Hpre; now right). reflexivity.
Qed.

Lemma df_setitem_rows (df : DataFrame) (key : pystr) (P : Series -> pystr -> Prop)
    (codes : list pystr) :
  Forall2 P df codes ->
  Forall2 (fun row row' => exists code, P row code
                           /\ row' = series_set row key (CellStr code))
          df (df_setitem df key (map CellStr codes)).
Proof.
  induction 1 as [|row code df codes H F IH]; simpl; constructor; eauto.
Qed.

Lemma Forall2_nth_error (A B : Type) (R : A -> B -> Prop) (l : list A) (l' : list B) :
  Forall2 R l l' ->
  forall i a, nth_error l i = Some a -> exists b, nth_error l' i = Some b /\ R a b.
Proof.
  induction 1 as [|x y l l' H F IH]; intros [|i] a; simpl; try discriminate.
  - intros [= <-]. eauto.
  - apply IH.
Qed.

Lemma values_row_stored (t : dtype) (row : Series) :
  t <> float64 -> values_row t row = row.
Proof. destruct t; [reflexivity|congruence|reflexivity]. Qed.

(** Unless the array is one of floats, the rows handed over are the rows
    as stored. *)
Lemma as_applied_stored (df : DataFrame) (row : Series) :
  values_dtype df <> float64 -> as_applied df row = row.
Proof. apply values_row_stored. Qed.

Lemma df_values_stored (df : DataFrame) :
  values_dtype df <> float64 -> df_values df = df.
Proof.
  intros H. unfold df_values.
  transitivity (map (fun r : Series => r) df); [|apply map_id].
  apply map_ext. intros r. apply as_applied_stored. exact H.
Qed.



Lemma Forall2_map_l (A B C : Type) (g : A -> B) (R : B -> C -> Prop)
    (l : list A) (l' : list C) :
  Forall2 R (map g l) l' <-> Forall2 (fun a c => R (g a) c) l l'.
Proof.
  revert l'. induction l as [|a l IH]; intros l'; simpl.
  - split; intros H; inversion H; constructor.
  - split; intros H; inversion H; subst; constructor; auto; now apply IH.
Qed.

Section ClassificationFacts.

Context {U : CharClasses}.
Variable E : Type.
Variable taric_text : pystr.
Variable llm : Messages -> result E pystr.

(** What a row sends to the service and what becomes of the answer. *)
Lemma _classify_row_calls (name_col desc_col comp_col : pystr) (row : Series) :
  _classify_row taric_text llm name_col desc_col comp_col row
  = (raw <- llm (prompt (row_input taric_text name_col desc_col comp_col row)) ;;
     Ok (normalize_code (Some raw))).
Proof. reflexivity. Qed.

Lemma _classify_row_ok (name_col desc_col comp_col : pystr) (row : Series) (raw : pystr) :
  llm (prompt (row_input taric_text name_col desc_col comp_col row)) = Ok raw ->
  _classify_row taric_text llm name_col desc_col comp_col row
  = Ok (normalize_code (Some raw)).
Proof. intros H. rewrite _classify_row_calls, H. reflexivity. Qed.

(** An absent or empty argument of [classify_product] is the empty text in
    the prompt. *)
Lemma or_empty_missing (x : option pystr) :
  x = None \/ x = Some [] -> or_empty x = [].
Proof. intros [->| ->]; reflexivity. Qed.

(** So is a column the row does not have, and a cell holding the empty
    text. *)
Lemma row_field_missing (row : Series) (col : pystr) :
  ~ In col (labels row) -> row_field row col = [].
Proof.
  unfold row_field, labels. induction row as [|[k x] row IH]; simpl; [reflexivity|].
  intros H. rewrite pystr_eqb_neq by tauto. apply IH. tauto.
Qed.

End ClassificationFacts.

(** * Claims *)

(** ** normalize_code *)

(** C1. For every input, [None] and the empty text included, [normalize_code]
    returns (it is a total function: nothing in it can raise) either the
    sentinel or a non-empty text of decimal digits only, whose length is one
    of 2, 4, 6, 8, 10 or at most 12. *)
Theorem C1_normalize_code_sentinel_or_digits (U : CharClasses) (t : option pystr) :
  normalize_code t = UNKNOWN
  \/ (normalize_code t <> []
      /\ forallb isdecimal (normalize_code t) = true
      /\ (In (length (normalize_code t)) accepted_set
          \/ length (normalize_code t) <= 12)).
Proof.
  destruct t as [t|]; [|now left].
  destruct (normalize_code_outcome t) as [E|Hin|m Hne Hout S|Hne Hout S L|Hout S L].
  - now left.
  - right. pose proof Hin as Hin'. apply accepted_set_lengths in Hin'.
    split; [|split; [apply re_sub_nondigits_decimal|now left]].
    intros E. rewrite E in Hin'. apply accepted_set_le in Hin'. simpl in Hin'. lia.
  - right. apply re_search_10_some in S as [S _].
    apply run10_at_shape in S as (L & D & _).
    split; [intros E; rewrite E in L; discriminate L|].
    split; [exact D|]. left. rewrite L. unfold accepted_set. simpl. tauto.
  - right. split; [exact Hne|]. split; [apply re_sub_nondigits_decimal|now right].
  - now left.
Qed.

(** C2, as stated, fails: a text with three digits and no ten-digit match is
    returned as those three digits. *)
Lemma C2_counterexample_three_digits :
  str "123" <> UNKNOWN
  /\ ~ In (length (str "123")) accepted_set
  /\ (forall U : CharClasses, normalize_code (Some (str "123")) = str "123")
  /\ ~ (forall (U : CharClasses) (t : option pystr),
         normalize_code t = UNKNOWN
         \/ (forallb isdecimal (normalize_code t) = true
             /\ In (length (normalize_code t)) accepted_set)).
Proof.
  assert (N : str "123" <> UNKNOWN) by discriminate.
  assert (L : ~ In (length (str "123")) accepted_set)
    by (unfold accepted_set; simpl; lia).
  assert (E : forall U : CharClasses, normalize_code (Some (str "123")) = str "123")
    by (intros U; ascii_normalize).
  repeat split; try assumption.
  intros H. destruct (H ascii_classes (Some (str "123"))) as [H1|[_ H2]];
    rewrite E in *; tauto.
Qed.

(** C2, amended. Every result other than the sentinel consists of decimal
    digits only; its length is one of 2, 4, 6, 8, 10, except on the
    best-effort branch (the pattern matches nowhere in the text), where the
    result is the whole digit-only candidate and its length is one of
    1, 3, 5, 7, 9, 11, 12. *)
Theorem C2_normalize_code_lengths (U : CharClasses) (t : option pystr) :
  normalize_code t = UNKNOWN
  \/ (forallb isdecimal (normalize_code t) = true
      /\ In (length (normalize_code t)) accepted_set)
  \/ (exists text, t = Some text
      /\ re_search_10 text = None
      /\ normalize_code t = re_sub_nondigits text
      /\ forallb isdecimal (normalize_code t) = true
      /\ In (length (normalize_code t)) lenient_set).
Proof.
  destruct t as [t|]; [|now left].
  destruct (normalize_code_outcome t) as [E|Hin|m Hne Hout S|Hne Hout S L|Hout S L].
  - now left.
  - right; left. split; [apply re_sub_nondigits_decimal|].
    apply accepted_set_lengths. exact Hin.
  - right; left. apply re_search_10_some in S as [S _].
    apply run10_at_shape in S as (L & D & _).
    split; [exact D|]. rewrite L. unfold accepted_set. simpl. tauto.
  - right; right. exists t. repeat split; auto using re_sub_nondigits_decimal.
    apply lenient_set_spec.
    + split; [apply nonempty_length; exact Hne|exact L].
    + rewrite accepted_set_lengths. exact Hout.
  - now left.
Qed.

(** C5. [normalize_code] is idempotent: normalising its own result changes
    nothing. *)
Theorem C5_normalize_code_idempotent (U : CharClasses) (t : option pystr) :
  normalize_code (Some (normalize_code t)) = normalize_code t.
Proof.
  destruct t as [t|]; [|apply normalize_code_UNKNOWN].
  destruct (outcome_short (normalize_code_outcome t)) as [E|(Hne & D & L)].
  - rewrite E. apply normalize_code_UNKNOWN.
  - apply normalize_code_fixed; assumption.
Qed.

(** C6. With a non-empty digit-only candidate whose length is not accepted,
    and no ten-digit run found in the text (the search fails; in particular
    when the text has no run of exactly ten digits between non-digits at
    all), [normalize_code] returns the candidate when it has at most 12
    digits and the sentinel from 13 digits on; and fourteen digits give the
    sentinel. *)
Theorem C6_normalize_code_best_effort (U : CharClasses) :
  (forall t : pystr,
      re_sub_nondigits t <> [] ->
      ~ In (length (re_sub_nondigits t)) accepted_set ->
      (re_search_10 t = None \/ forall i run, ~ digit_bounded_run t i run) ->
      normalize_code (Some t)
      = if length (re_sub_nondigits t) <=? 12 then re_sub_nondigits t else UNKNOWN)
  /\ normalize_code (Some (str "12345678901234")) = UNKNOWN.
Proof.
  split; [|ascii_normalize].
  intros t Hne Hout Hno.
  assert (S : re_search_10 t = None)
    by (destruct Hno as [S|S]; [exact S|apply no_digit_run_no_match, S]).
  rewrite accepted_set_lengths in Hout.
  destruct (normalize_code_outcome t) as [E|Hin|m _ _ S'|_ _ _ L|_ _ L];
    try congruence; try tauto.
  - apply Nat.leb_le in L. rewrite L. reflexivity.
  - apply Nat.leb_gt in L. rewrite L. reflexivity.
Qed.

(** C6 at fourteen digits (sentinel) and at three digits among letters
    (returned as they are). *)
Lemma C6_witness_fourteen_and_three :
  @normalize_code ascii_classes (Some (str "12345678901234")) = UNKNOWN
  /\ @normalize_code ascii_classes (Some (str "ca 123 st")) = str "123".
Proof.
  split.
  - apply (proj1 (C6_normalize_code_best_effort ascii_classes) (str "12345678901234")).
    + discriminate.
    + unfold accepted_set. simpl. lia.
    + left. reflexivity.
  - apply (proj1 (C6_normalize_code_best_effort ascii_classes) (str "ca 123 st")).
    + discriminate.
    + unfold accepted_set. simpl. lia.
    + left. reflexivity.
Defined.

(** C8. When the digit-only candidate has one of the lengths 2, 4, 6, 8, 10
    it is returned unchanged: the loop over (10, 8, 6, 4, 2) is a membership
    test on the accepted lengths; and ten digits pass through. *)
Theorem C8_normalize_code_accepted_length (U : CharClasses) :
  (forall t : pystr,
      In (length (re_sub_nondigits t)) accepted_set ->
      normalize_code (Some t) = re_sub_nondigits t)
  /\ (forall d : pystr,
      first_length_match accepted_lengths d
      = if existsb (Nat.eqb (length d)) accepted_set then Some d else None)
  /\ normalize_code (Some (str "1234567890")) = str "1234567890".
Proof.
  assert (M : forall d : pystr,
      first_length_match accepted_lengths d
      = if existsb (Nat.eqb (length d)) accepted_set then Some d else None).
  { intros d. destruct (existsb (Nat.eqb (length d)) accepted_set) eqn:E.
    - apply first_length_match_in, accepted_set_lengths, membership_test, E.
    - apply first_length_match_none. rewrite <- accepted_set_lengths, <- membership_test.
      congruence. }
  split; [|split; [exact M|ascii_normalize]].
  intros t Hin. unfold normalize_code. destruct t as [|x t].
  - apply accepted_set_le in Hin. simpl in Hin. lia.
  - cbv zeta. rewrite M. apply membership_test in Hin. rewrite Hin.
    destruct (re_sub_nondigits (x :: t)) eqn:D; [|reflexivity].
    discriminate Hin.
Qed.

(** C8 at a text with eight digits among other characters. *)
Lemma C8_witness_eight_digits :
  @normalize_code ascii_classes (Some (str "3004.90.00")) = str "30049000".
Proof.
  apply (proj1 (C8_normalize_code_accepted_length ascii_classes) (str "3004.90.00")).
  unfold accepted_set. simpl. tauto.
Defined.

(** C7, as stated, fails under every classification: ten digits that follow
    a letter directly are a run between non-digits, but [\b] does not match
    between a letter and a digit, so the search fails and the twelve digits
    of the whole text are returned. *)
Lemma C7_counterexample_run_after_letter :
  (forall U : CharClasses,
      ~ In (length (re_sub_nondigits (str "nr3004909099, kapitel 30"))) accepted_set
      /\ digit_bounded_run (str "nr3004909099, kapitel 30") 2 (str "3004909099")
      /\ normalize_code (Some (str "nr3004909099, kapitel 30")) = str "300490909930")
  /\ (forall U : CharClasses,
      ~ (forall t : pystr,
          ~ In (length (re_sub_nondigits t)) accepted_set ->
          (exists i run, digit_bounded_run t i run) ->
          exists i, digit_bounded_run t i (normalize_code (Some t)))).
Proof.
  assert (F : forall U : CharClasses,
      ~ In (length (re_sub_nondigits (str "nr3004909099, kapitel 30"))) accepted_set
      /\ digit_bounded_run (str "nr3004909099, kapitel 30") 2 (str "3004909099")
      /\ normalize_code (Some (str "nr3004909099, kapitel 30")) = str "300490909930").
  { intros U. split; [|split].
    - rewrite re_sub_nondigits_ascii by reflexivity. vm_compute. lia.
    - ascii_run (str "nr") (str ", kapitel 30").
    - ascii_normalize. }
  split; [exact F|].
  intros U H. destruct (F U) as (H1 & H2 & H3).
  destruct (H _ H1 (ex_intro _ 2 (ex_intro _ _ H2))) as [i Hi].
  rewrite H3 in Hi. apply run10_at_shape in Hi as [L _]. discriminate L.
Qed.

(** C7, amended. When the length of the digit-only candidate is not accepted
    and the text holds a run of exactly ten digits with, on each side, a
    non-word character (not a letter, digit or underscore) or the end of the
    text, [normalize_code] returns such a run; and the ten digits of
    "The code is 3004909099." are found. *)
Theorem C7_normalize_code_word_bounded_run (U : CharClasses) :
  (forall t : pystr,
      ~ In (length (re_sub_nondigits t)) accepted_set ->
      (exists i run, word_bounded_run t i run) ->
      exists i, word_bounded_run t i (normalize_code (Some t)))
  /\ normalize_code (Some (str "The code is 3004909099.")) = str "3004909099".
Proof.
  split; [|ascii_normalize].
  intros t Hout (i & run & Hrun).
  rewrite accepted_set_lengths in Hout.
  pose proof (run10_at_digits Hrun) as Hne.
  destruct (normalize_code_outcome t) as [E|Hin|m _ _ S|_ _ S _|_ S _];
    try congruence; try tauto.
  - exists (m_start m). apply re_search_10_some in S. tauto.
  - destruct (re_search_10_none S Hrun).
  - destruct (re_search_10_none S Hrun).
Qed.

(** C7 at a reply with a code between a colon and a full stop, next to a
    two-digit chapter number. *)
Lemma C7_witness_code_in_sentence :
  exists i,
    @word_bounded_run ascii_classes (str "Kapitel 30: 3004909099.") i
      (@normalize_code ascii_classes (Some (str "Kapitel 30: 3004909099."))).
Proof.
  apply (proj1 (C7_normalize_code_word_bounded_run ascii_classes)).
  - unfold accepted_set. simpl. lia.
  - exists 12, (str "3004909099").
    exists (str "Kapitel 30: "), (str "."). repeat split.
Defined.

(** C10, as stated, fails under every classification: the leftmost run of
    ten digits between non-digits follows a letter, where [\b] does not
    match; the search goes on and returns the second run. *)
Lemma C10_counterexample_second_run :
  (forall U : CharClasses,
      ~ In (length (re_sub_nondigits (str "x3004909099 3004320000 y"))) accepted_set
      /\ digit_bounded_run (str "x3004909099 3004320000 y") 1 (str "3004909099")
      /\ normalize_code (Some (str "x3004909099 3004320000 y")) = str "3004320000")
  /\ (forall U : CharClasses,
      ~ (forall t : pystr,
          ~ In (length (re_sub_nondigits t)) accepted_set ->
          (exists i run, digit_bounded_run t i run) ->
          exists i, digit_bounded_run t i (normalize_code (Some t))
                    /\ forall k run, digit_bounded_run t k run -> i <= k)).
Proof.
  assert (F : forall U : CharClasses,
      ~ In (length (re_sub_nondigits (str "x3004909099 3004320000 y"))) accepted_set
      /\ digit_bounded_run (str "x3004909099 3004320000 y") 1 (str "3004909099")
      /\ normalize_code (Some (str "x3004909099 3004320000 y")) = str "3004320000").
  { intros U. split; [|split].
    - rewrite re_sub_nondigits_ascii by reflexivity. vm_compute. lia.
    - ascii_run (str "x") (str " 3004320000 y").
    - ascii_normalize. }
  split; [exact F|].
  intros U H. destruct (F U) as (H1 & H2 & H3).
  destruct (H _ H1 (ex_intro _ 1 (ex_intro _ _ H2))) as (i & Hi & Hmin).
  specialize (Hmin _ _ H2). rewrite H3 in Hi.
  apply run10_at_shape in Hi as (_ & _ & E).
  destruct i as [|[|i]]; [discriminate E|discriminate E|lia].
Qed.

(** C10, amended. When the length of the digit-only candidate is not
    accepted and the text holds a run of exactly ten digits with, on each
    side, a non-word character or the end of the text, [normalize_code]
    returns the leftmost such run. *)
Theorem C10_normalize_code_leftmost_word_bounded_run
    (U : CharClasses) (t : pystr) (i : nat) (run : pystr) :
  ~ In (length (re_sub_nondigits t)) accepted_set ->
  word_bounded_run t i run ->
  exists j,
    j <= i
    /\ word_bounded_run t j (normalize_code (Some t))
    /\ forall k run', word_bounded_run t k run' -> j <= k.
Proof.
  intros Hout Hrun. rewrite accepted_set_lengths in Hout.
  pose proof (run10_at_digits Hrun) as Hne.
  destruct (normalize_code_outcome t) as [E|Hin|m _ _ S|_ _ S _|_ S _];
    try congruence; try tauto.
  - apply re_search_10_some in S as [S Hmin].
    exists (m_start m). split; [exact (Hmin _ _ Hrun)|]. split; [exact S|exact Hmin].
  - destruct (re_search_10_none S Hrun).
  - destruct (re_search_10_none S Hrun).
Qed.

(** C10 at a reply with two codes: the first is returned. *)
Lemma C10_witness_two_codes :
  exists j,
    j <= 17
    /\ @word_bounded_run ascii_classes (str "A: 3004909099 B: 3004320000 x") j
         (@normalize_code ascii_classes (Some (str "A: 3004909099 B: 3004320000 x")))
    /\ forall k run',
         @word_bounded_run ascii_classes (str "A: 3004909099 B: 3004320000 x") k run' ->
         j <= k.
Proof.
  apply (@C10_normalize_code_leftmost_word_bounded_run ascii_classes
           (str "A: 3004909099 B: 3004320000 x") 17 (str "3004320000")).
  - unfold accepted_set. simpl. lia.
  - exists (str "A: 3004909099 B: "), (str " x"). repeat split.
Defined.

(** ** The prompt and the batch column *)

(** C3, as stated, fails: with the service down on the second of three
    rows, rows one and three classify on their own, but the batch raises
    the exception of row two and returns no table. *)
Lemma C3_counterexample_second_row_raises :
  (forall U : CharClasses,
      _classify_row demo_taric (service_down_on demo_row2 (str "3004909099"))
        (str "Namn") (str "Beskrivning") (str "Substans") demo_row1
      = Ok (str "3004909099")
      /\ _classify_row demo_taric (service_down_on demo_row2 (str "3004909099"))
           (str "Namn") (str "Beskrivning") (str "Substans") demo_row2
         = Raise (str "ServiceUnavailable")
      /\ _classify_row demo_taric (service_down_on demo_row2 (str "3004909099"))
           (str "Namn") (str "Beskrivning") (str "Substans") demo_row3
         = Ok (str "3004909099")
      /\ add_tullkod_column demo_taric (service_down_on demo_row2 (str "3004909099"))
           [demo_row1; demo_row2; demo_row3]
           (str "Namn") (str "Beskrivning") (str "Substans") default_output_col
         = Raise (str "ServiceUnavailable"))
  /\ (forall U : CharClasses,
      ~ exists df',
          add_tullkod_column demo_taric (service_down_on demo_row2 (str "3004909099"))
            [demo_row1; demo_row2; demo_row3]
            (str "Namn") (str "Beskrivning") (str "Substans") default_output_col
          = Ok df').
Proof.
  assert (H1 : forall U : CharClasses,
      _classify_row demo_taric (service_down_on demo_row2 (str "3004909099"))
        (str "Namn") (str "Beskrivning") (str "Substans") demo_row1
      = Ok (str "3004909099")).
  { intros U. rewrite (@_classify_row_ok U _ _ _ _ _ _ _ (str "3004909099")) by reflexivity.
    f_equal. ascii_normalize. }
  assert (H2 : forall U : CharClasses,
      _classify_row demo_taric (service_down_on demo_row2 (str "3004909099"))
        (str "Namn") (str "Beskrivning") (str "Substans") demo_row2
      = Raise (str "ServiceUnavailable")) by reflexivity.
  assert (H3 : forall U : CharClasses,
      _classify_row demo_taric (service_down_on demo_row2 (str "3004909099"))
        (str "Namn") (str "Beskrivning") (str "Substans") demo_row3
      = Ok (str "3004909099")).
  { intros U. rewrite (@_classify_row_ok U _ _ _ _ _ _ _ (str "3004909099")) by reflexivity.
    f_equal. ascii_normalize. }
  assert (H4 : forall U : CharClasses,
      add_tullkod_column demo_taric (service_down_on demo_row2 (str "3004909099"))
        [demo_row1; demo_row2; demo_row3]
        (str "Namn") (str "Beskrivning") (str "Substans") default_output_col
      = Raise (str "ServiceUnavailable")).
  { intros U. unfold add_tullkod_column, df_apply_rows.
    change (df_values [demo_row1; demo_row2; demo_row3])
      with [demo_row1; demo_row2; demo_row3].
    cbn [mapM]. rewrite H1, H2. reflexivity. }
  split.
  - intros U. auto.
  - intros U [df' H]. rewrite H4 in H. discriminate H.
Qed.

(** C3, amended. [add_tullkod_column] has no handler: when the service call
    of a row (the row as [df.apply] hands it over) raises and every row
    before it was classified, the batch raises that exception and returns
    no table. *)
Theorem C3_add_tullkod_column_raises
    (U : CharClasses) (E : Type) (taric_text : pystr) (llm : Messages -> result E pystr)
    (pre : DataFrame) (row : Series) (post : DataFrame)
    (name_col desc_col comp_col output_col : pystr) (e : E) :
  (forall r, In r pre ->
     exists code,
       _classify_row taric_text llm name_col desc_col comp_col
         (as_applied (pre ++ row :: post) r) = Ok code) ->
  llm (prompt (row_input taric_text name_col desc_col comp_col
                 (as_applied (pre ++ row :: post) row))) = Raise e ->
  add_tullkod_column taric_text llm (pre ++ row :: post)
    name_col desc_col comp_col output_col
  = Raise e.
Proof.
  intros Hpre Hrow. unfold add_tullkod_column, df_apply_rows, df_values.
  rewrite map_app. cbn [map].
  rewrite (mapM_raise _ (map (as_applied (pre ++ row :: post)) pre)
             (as_applied (pre ++ row :: post) row)
             (map (as_applied (pre ++ row :: post)) post) (e := e)); [reflexivity| |].
  - intros x Hx. apply in_map_iff in Hx as (r & <- & Hr). exact (Hpre r Hr).
  - rewrite _classify_row_calls, Hrow. reflexivity.
Qed.

(** C3 at the table of three rows with the service down on the second. *)
Lemma C3_witness_three_rows :
  @add_tullkod_column ascii_classes pystr demo_taric
    (service_down_on demo_row2 (str "3004909099"))
    ([demo_row1] ++ demo_row2 :: [demo_row3])
    (str "Namn") (str "Beskrivning") (str "Substans") default_output_col
  = Raise (str "ServiceUnavailable").
Proof.
  apply C3_add_tullkod_column_raises.
  - intros r [<-|[]]. exists (str "3004909099"). reflexivity.
  - reflexivity.
Defined.

(** C4. On the single-product path an absent or empty field is the empty
    text in the prompt; on the batch path a cell that is NaN (an empty
    spreadsheet cell) or [None] goes through [str()] first and reaches the
    prompt as the words "nan" and "None". *)
Theorem C4_empty_cell_reaches_prompt_as_nan (taric_text : pystr) :
  p_desc (classify_input taric_text (Some (str "Alvedon")) None (Some [])) = []
  /\ p_composition (classify_input taric_text (Some (str "Alvedon")) None (Some [])) = []
  /\ p_desc (row_input taric_text (str "Namn") (str "Beskrivning") (str "Substans")
               (demo_row (CellStr (str "Alvedon")) CellNaN CellNone)) = str "nan"
  /\ p_composition (row_input taric_text (str "Namn") (str "Beskrivning") (str "Substans")
               (demo_row (CellStr (str "Alvedon")) CellNaN CellNone)) = str "None"
  /\ user_message (row_input taric_text (str "Namn") (str "Beskrivning") (str "Substans")
               (demo_row (CellStr (str "Alvedon")) CellNaN CellNone))
     = str "JSON:" ++ [newline] ++ taric_text ++ [newline; newline]
       ++ str "Produktnamn: Alvedon" ++ [newline]
       ++ str "Produktbeskrivning: nan" ++ [newline]
       ++ str "Produktsammans" ++ [a_umlaut] ++ str "ttning / substanser: None".
Proof.
  repeat (split; [reflexivity|]). reflexivity.
Qed.


(** The first sheet as [df.apply] hands it over. *)
Example df_values_sheet_of_numbers :
  df_values sheet_of_numbers
  = [[(str "Art", CellFloat (str "3004.0")); (str "Styrka", CellFloat (str "500.0"));
      (str "Antal", CellFloat (str "20.0")); (str "Pris", CellFloat (str "1.5"))];
     [(str "Art", CellFloat (str "3005.0")); (str "Styrka", CellFloat (str "250.0"));
      (str "Antal", CellFloat (str "10.0")); (str "Pris", CellFloat (str "2.5"))]]
  /\ df_values sheet_with_a_text = sheet_with_a_text.
Proof. split; reflexivity. Qed.




Example add_tullkod_column_two_rows :
  @add_tullkod_column ascii_classes pystr demo_taric (service_up (str "Kod: 3004 90 00"))
    [demo_row1; demo_row2]
    (str "Namn") (str "Beskrivning") (str "Substans") default_output_col
  = Ok [demo_row1 ++ [(str "Tullkod", CellStr (str "30049000"))];
        demo_row2 ++ [(str "Tullkod", CellStr (str "30049000"))]].
Proof. vm_compute. reflexivity. Qed.

(** * Further properties *)

(** ** Literals *)

Example text_swedish :
  text "Produktsammansättning / substanser: "
  = str "Produktsammans" ++ [a_umlaut] ++ str "ttning / substanser: "
  /\ text "åÅö–" = [229%N; 197%N; 246%N; 8211%N]
  /\ text "🔗" = [128279%N].
Proof. repeat split. Qed.

(** ** More on normalize_code *)

Lemma decimal_not_UNKNOWN (U : CharClasses) (r : pystr) :
  forallb isdecimal r = true -> r <> UNKNOWN.
Proof.
  intros D ->. rewrite forallb_isdecimal_ascii in D by reflexivity. discriminate D.
Qed.

Lemma accepted_length_nonempty (A : Type) (l : list A) :
  In (length l) accepted_lengths -> l <> [].
Proof. intros H ->. simpl in H. lia. Qed.

(** X1. [normalize_code] gives the sentinel on exactly two kinds of text:
    those without any digit, and those with 13 digits or more (and not an
    accepted number of them) in which the pattern matches nowhere. *)
Theorem normalize_code_sentinel_iff (U : CharClasses) (t : pystr) :
  normalize_code (Some t) = UNKNOWN
  <-> re_sub_nondigits t = []
      \/ (~ In (length (re_sub_nondigits t)) accepted_set
          /\ re_search_10 t = None
          /\ 12 < length (re_sub_nondigits t)).
Proof.
  pose proof (re_sub_nondigits_decimal t) as D.
  destruct (normalize_code_outcome t) as [E|Hin|m Hne Hout S|Hne Hout S L|Hout S L].
  - split; [now left|reflexivity].
  - split.
    + intros H. destruct (decimal_not_UNKNOWN _ D H).
    + intros [E|(Hout & _)].
      * destruct (accepted_length_nonempty Hin E).
      * rewrite accepted_set_lengths in Hout. contradiction.
  - split.
    + intros H. apply re_search_10_some in S as [S _].
      apply run10_at_shape in S as (_ & Dm & _).
      destruct (decimal_not_UNKNOWN _ Dm H).
    + intros [E|(_ & S' & _)]; congruence.
  - split.
    + intros H. destruct (decimal_not_UNKNOWN _ D H).
    + intros [E|(_ & _ & L')]; [congruence|lia].
  - split; [|reflexivity]. intros _. right.
    rewrite accepted_set_lengths. auto.
Qed.

(** X2. [normalize_code] never makes up a digit: a result other than the
    sentinel is a block of consecutive digits of the digit-only candidate,
    so its digits are digits of the text, in the order of the text. *)
Theorem normalize_code_block_of_candidate (U : CharClasses) (t : pystr) :
  normalize_code (Some t) = UNKNOWN
  \/ exists before after,
       re_sub_nondigits t = before ++ normalize_code (Some t) ++ after.
Proof.
  destruct (normalize_code_outcome t) as [E|Hin|m Hne Hout S|Hne Hout S L|Hout S L];
    [now left| | | |now left]; right.
  - exists [], []. rewrite app_nil_r. reflexivity.
  - apply re_search_10_some in S as [(pre & post & Ht & _ & _ & D & _) _].
    exists (re_sub_nondigits pre), (re_sub_nondigits post).
    rewrite Ht at 1. unfold re_sub_nondigits. rewrite !filter_app.
    fold (re_sub_nondigits (m_group m)). rewrite (re_sub_nondigits_fixed _ D).
    reflexivity.
  - exists [], []. rewrite app_nil_r. reflexivity.
Qed.

(** ** classify_product *)

(** X3. [classify_product] raises exactly what the service raises on its
    request and nothing else; when the service answers, whatever the
    answer, the result is the sentinel or one to twelve decimal digits. *)
Theorem classify_product_result
    (U : CharClasses) (E : Type) (taric_text : pystr) (llm : Messages -> result E pystr)
    (product_name product_description composition : option pystr) :
  (forall e,
      classify_product taric_text llm product_name product_description composition
      = Raise e
      <-> llm (prompt (classify_input taric_text product_name product_description
                         composition)) = Raise e)
  /\ (forall raw,
      llm (prompt (classify_input taric_text product_name product_description
                     composition)) = Ok raw ->
      exists code,
        classify_product taric_text llm product_name product_description composition
        = Ok code
        /\ (code = UNKNOWN
            \/ (code <> [] /\ forallb isdecimal code = true /\ length code <= 12))).
Proof.
  unfold classify_product, classification_chain. split.
  - intros e.
    destruct (llm (prompt (classify_input taric_text product_name
                             product_description composition))) as [raw|e'];
      simpl; split; congruence.
  - intros raw ->. simpl. exists (normalize_code (Some raw)).
    split; [reflexivity|]. apply (outcome_short (normalize_code_outcome raw)).
Qed.

(** ** The user message *)

Lemma split_at_separator (A : Type) (x : A) (a a' r r' : list A) :
  ~ In x a -> ~ In x a' -> a ++ x :: r = a' ++ x :: r' -> a = a' /\ r = r'.
Proof.
  revert a'. induction a as [|y a IH]; intros [|y' a'] Ha Ha' H; simpl in *.
  - injection H as ->. auto.
  - injection H as <- _. tauto.
  - injection H as -> _. tauto.
  - injection H as -> H. destruct (IH a') as [-> ->]; tauto.
Qed.

(** X4. With the same hierarchy text, the user message tells the three
    fields apart as long as the name and the description hold no line
    break: two inputs with the same message are the same input. *)
Theorem user_message_injective (i j : PromptInput) :
  p_json i = p_json j ->
  ~ In newline (p_name i) -> ~ In newline (p_name j) ->
  ~ In newline (p_desc i) -> ~ In newline (p_desc j) ->
  user_message i = user_message j -> i = j.
Proof.
  destruct i as [ji ni di ci], j as [jj nj dj cj]. simpl.
  intros -> Hni Hnj Hdi Hdj H. unfold user_message in H. simpl in H.
  apply (app_inv_head (str "JSON:" ++ [newline])) in H.
  apply app_inv_head in H.
  apply (app_inv_head ([newline; newline] ++ str "Produktnamn: ")) in H.
  apply split_at_separator in H as [-> H]; [|assumption|assumption].
  apply (app_inv_head (str "Produktbeskrivning: ")) in H.
  apply split_at_separator in H as [-> H]; [|assumption|assumption].
  apply (app_inv_head (str "Produktsammans" ++ [a_umlaut] ++ str "ttning / substanser: ")) in H.
  subst. reflexivity.
Qed.

(** X4 at two inputs written differently: an absent composition and an
    empty one. *)
Lemma user_message_injective_witness :
  classify_input (str "[]") (Some (str "Alvedon")) (Some (str "tabletter")) None
  = classify_input (str "[]") (Some (str "Alvedon")) (Some (str "tabletter")) (Some []).
Proof.
  apply user_message_injective; try reflexivity;
    simpl; intros H; repeat (destruct H as [H|H]; [discriminate H|]); exact H.
Defined.

(** Without that, a line break in the name can pass for the end of the
    field: two different inputs, one message. *)
Example user_message_collision :
  let i := {| p_json := str "[]";
              p_name := str "A" ++ [newline] ++ str "Produktbeskrivning: B";
              p_desc := str "C"; p_composition := [] |} in
  let j := {| p_json := str "[]"; p_name := str "A";
              p_desc := str "B" ++ [newline] ++ str "Produktbeskrivning: C";
              p_composition := [] |} in
  i <> j /\ user_message i = user_message j.
Proof. split; [discriminate|reflexivity]. Qed.

(** ** More on add_tullkod_column *)

Lemma mapM_raise_inv (E A B : Type) (f : A -> result E B) (l : list A) (e : E) :
  mapM f l = Raise e ->
  exists pre a post,
    l = pre ++ a :: post /\ (forall x, In x pre -> exists b, f x = Ok b) /\ f a = Raise e.
Proof.
  induction l as [|x l IH]; simpl; [discriminate|].
  destruct (f x) as [b|e'] eqn:Fx; simpl.
  - destruct (mapM f l) as [bs|e''] eqn:M; simpl; [discriminate|].
    intros [= ->]. destruct (IH eq_refl) as (pre & a & post & -> & Hpre & Ha).
    exists (x :: pre), a, post. split; [reflexivity|]. split; [|exact Ha].
    intros y [<-|Hy]; eauto.
  - intros [= ->]. exists [], x, l. split; [reflexivity|]. split; [|exact Fx].
    intros y [].
Qed.

Lemma mapM_ok_inv (E A B : Type) (f : A -> result E B) (l : list A) (bs : list B) :
  mapM f l = Ok bs -> Forall2 (fun a b => f a = Ok b) l bs.
Proof.
  revert bs. induction l as [|x l IH]; simpl; intros bs.
  - intros [= <-]. constructor.
  - destruct (f x) as [b|e] eqn:Fx; simpl; [|discriminate].
    destruct (mapM f l) as [bs'|e] eqn:M; simpl; [|discriminate].
    intros [= <-]. constructor; auto.
Qed.

Section BatchFacts.

Context {U : CharClasses}.
Variable E : Type.
Variable taric_text : pystr.
Variable llm : Messages -> result E pystr.

Lemma _classify_row_ok_iff (name_col desc_col comp_col : pystr) (row : Series) :
  (exists code, _classify_row taric_text llm name_col desc_col comp_col row = Ok code)
  <-> exists raw, llm (prompt (row_input taric_text name_col desc_col comp_col row)) = Ok raw.
Proof.
  rewrite _classify_row_calls.
  destruct (llm (prompt (row_input taric_text name_col desc_col comp_col row)));
    simpl; split; intros [x H]; try discriminate; eauto.
Qed.

Lemma _classify_row_raise_iff (name_col desc_col comp_col : pystr) (row : Series) (e : E) :
  _classify_row taric_text llm name_col desc_col comp_col row = Raise e
  <-> llm (prompt (row_input taric_text name_col desc_col comp_col row)) = Raise e.
Proof.
  rewrite _classify_row_calls.
  destruct (llm (prompt (row_input taric_text name_col desc_col comp_col row)));
    simpl; split; congruence.
Qed.

End BatchFacts.

(** X5. On a table with rows, [add_tullkod_column] raises [e] exactly when
    [e] is what the service raises on the first row it does not answer
    for, and returns a table exactly when the service answers for every
    row (the requests being those of the rows as [df.apply] hands them
    over). *)
Theorem add_tullkod_column_raises_iff
    (U : CharClasses) (E : Type) (taric_text : pystr) (llm : Messages -> result E pystr)
    (df : DataFrame) (name_col desc_col comp_col output_col : pystr) :
  df <> [] ->
  (forall e,
      add_tullkod_column taric_text llm df name_col desc_col comp_col output_col = Raise e
      <-> exists pre row post,
            df = pre ++ row :: post
            /\ (forall r, In r pre ->
                  exists raw,
                    llm (prompt (row_input taric_text name_col desc_col comp_col
                                   (as_applied df r))) = Ok raw)
            /\ llm (prompt (row_input taric_text name_col desc_col comp_col
                              (as_applied df row))) = Raise e)
  /\ ((exists df',
         add_tullkod_column taric_text llm df name_col desc_col comp_col output_col = Ok df')
      <-> forall r, In r df ->
            exists raw,
              llm (prompt (row_input taric_text name_col desc_col comp_col
                             (as_applied df r))) = Ok raw).
Proof.
  intros _. unfold add_tullkod_column, df_apply_rows, df_values. split.
  - intros e. split.
    + destruct (mapM _ (map _ df)) as [codes|e'] eqn:M; simpl; [discriminate|].
      intros [= ->]. apply mapM_raise_inv in M as (pre' & sent & post' & Hd & Hpre & Hrow).
      apply map_eq_app in Hd as (pre & rest & -> & <- & Hrest).
      apply map_eq_cons in Hrest as (row & post & -> & <- & <-).
      exists pre, row, post. split; [reflexivity|]. split.
      * intros r Hr. apply _classify_row_ok_iff. apply Hpre.
        apply in_map. exact Hr.
      * apply _classify_row_raise_iff. exact Hrow.
    + intros (pre & row & post & Hd & Hpre & Hrow).
      rewrite Hd at 2. rewrite map_app. cbn [map].
      rewrite (mapM_raise _ (map (as_applied df) pre) (as_applied df row)
                 (map (as_applied df) post) (e := e)); [reflexivity| |].
      * intros x Hx. apply in_map_iff in Hx as (r & <- & Hr).
        apply _classify_row_ok_iff. auto.
      * apply _classify_row_raise_iff. exact Hrow.
  - split.
    + intros [df' H] r Hr.
      destruct (mapM _ (map _ df)) as [codes|e'] eqn:M; simpl in H; [|discriminate].
      apply mapM_ok_inv, Forall2_map_l in M. apply In_nth_error in Hr as [k Hk].
      destruct (Forall2_nth_error M k Hk) as (code & _ & Hcode).
      apply _classify_row_ok_iff. eauto.
    + intros H.
      destruct (mapM_ok (_classify_row taric_text llm name_col desc_col comp_col)
                  (map (as_applied df) df)) as (codes & -> & _).
      * intros x Hx. apply in_map_iff in Hx as (r & <- & Hr).
        apply _classify_row_ok_iff. auto.
      * simpl. eauto.
Qed.

(** X5 at the table of three rows with the service down on the second. *)
Lemma add_tullkod_column_raises_iff_witness :
  exists pre row post,
    [demo_row1; demo_row2; demo_row3] = pre ++ row :: post
    /\ (forall r, In r pre ->
          exists raw,
            service_down_on demo_row2 (str "3004909099")
              (prompt (row_input demo_taric (str "Namn") (str "Beskrivning")
                         (str "Substans")
                         (as_applied [demo_row1; demo_row2; demo_row3] r))) = Ok raw)
    /\ service_down_on demo_row2 (str "3004909099")
         (prompt (row_input demo_taric (str "Namn") (str "Beskrivning")
                    (str "Substans")
                    (as_applied [demo_row1; demo_row2; demo_row3] row)))
       = Raise (str "ServiceUnavailable").
Proof.
  apply (proj1 (@add_tullkod_column_raises_iff ascii_classes pystr demo_taric
           (service_down_on demo_row2 (str "3004909099"))
           [demo_row1; demo_row2; demo_row3]
           (str "Namn") (str "Beskrivning") (str "Substans") default_output_col
           ltac:(discriminate)) (str "ServiceUnavailable")).
  reflexivity.
Defined.

Lemma series_set_again (row : Series) (key : pystr) (v w : cell) :
  series_set (series_set row key v) key w = series_set row key w.
Proof.
  induction row as [|[k x] row IH]; simpl.
  - rewrite (proj2 (pystr_eqb_eq key key) eq_refl). reflexivity.
  - destruct (pystr_eqb k key) eqn:Ek; simpl; rewrite Ek; [reflexivity|].
    rewrite IH. reflexivity.
Qed.

Lemma row_field_set_other (row : Series) (key col : pystr) (v : cell) :
  col <> key -> row_field (series_set row key v) col = row_field row col.
Proof. intros H. unfold row_field. rewrite series_get_set_other by exact H. reflexivity. Qed.

Lemma row_input_set_other (taric_text : pystr) (row : Series)
    (name_col desc_col comp_col key : pystr) (v : cell) :
  name_col <> key -> desc_col <> key -> comp_col <> key ->
  row_input taric_text name_col desc_col comp_col (series_set row key v)
  = row_input taric_text name_col desc_col comp_col row.
Proof.
  intros H1 H2 H3. unfold row_input. rewrite !row_field_set_other by assumption.
  reflexivity.
Qed.

Lemma common_dtype_object_r (t : dtype) : common_dtype t object = object.
Proof. destruct t; reflexivity. Qed.

Lemma common_dtype_object_l (t : dtype) : common_dtype object t = object.
Proof. destruct t; reflexivity. Qed.

Lemma row_dtype_cons (k : pystr) (x : cell) (row : Series) :
  row_dtype ((k, x) :: row) = common_dtype (cell_dtype x) (row_dtype row).
Proof. reflexivity. Qed.

Lemma row_dtype_set_text (row : Series) (key code : pystr) :
  row_dtype (series_set row key (CellStr code)) = object.
Proof.
  induction row as [|[k x] row IH]; [reflexivity|].
  cbn [series_set]. destruct (pystr_eqb k key); rewrite row_dtype_cons.
  - apply common_dtype_object_l.
  - rewrite IH. apply common_dtype_object_r.
Qed.

(** A table with a column of codes is not an array of floats. *)
Lemma values_dtype_setitem (df : DataFrame) (key : pystr) (codes : list pystr) :
  length codes = length df ->
  values_dtype (df_setitem df key (map CellStr codes)) <> float64.
Proof.
  destruct df as [|row df]; [discriminate|].
  destruct codes as [|code codes]; [discriminate|]. intros _.
  cbn [map df_setitem values_dtype fold_right].
  rewrite row_dtype_set_text, common_dtype_object_l. discriminate.
Qed.

(** X6. On a table with rows, when the output column is none of the three
    input columns and [df.values] is not an array of floats, running
    [add_tullkod_column] on its own result sends the service the same
    request for every row and overwrites the column in place: with a
    service that answers a request the same way each time, the table comes
    back unchanged, with no second column of codes. *)
Theorem add_tullkod_column_again
    (U : CharClasses) (E : Type) (taric_text : pystr) (llm : Messages -> result E pystr)
    (df df' : DataFrame) (name_col desc_col comp_col output_col : pystr) :
  df <> [] ->
  values_dtype df <> float64 ->
  name_col <> output_col -> desc_col <> output_col -> comp_col <> output_col ->
  add_tullkod_column taric_text llm df name_col desc_col comp_col output_col = Ok df' ->
  map (row_input taric_text name_col desc_col comp_col) (df_values df')
  = map (row_input taric_text name_col desc_col comp_col) (df_values df)
  /\ add_tullkod_column taric_text llm df' name_col desc_col comp_col output_col = Ok df'.
Proof.
  intros _ Ht H1 H2 H3. unfold add_tullkod_column, df_apply_rows.
  rewrite (df_values_stored df Ht).
  destruct (mapM _ df) as [codes|e] eqn:M; simpl; [|discriminate].
  intros [= <-]. apply mapM_ok_inv in M.
  rewrite (df_values_stored (df_setitem df output_col (map CellStr codes)))
    by (apply values_dtype_setitem; symmetry; exact (Forall2_length M)).
  assert (R : map (row_input taric_text name_col desc_col comp_col)
                (df_setitem df output_col (map CellStr codes))
              = map (row_input taric_text name_col desc_col comp_col) df).
  { clear Ht. induction M as [|row code df codes Hrow M IH]; simpl; [reflexivity|].
    rewrite row_input_set_other by assumption. rewrite IH. reflexivity. }
  split; [exact R|].
  assert (M' : mapM (_classify_row taric_text llm name_col desc_col comp_col)
                 (df_setitem df output_col (map CellStr codes)) = Ok codes).
  { clear R Ht. induction M as [|row code df codes Hrow M IH]; simpl; [reflexivity|].
    rewrite _classify_row_calls, row_input_set_other by assumption.
    rewrite <- _classify_row_calls, Hrow. simpl. rewrite IH. reflexivity. }
  rewrite M'. simpl. f_equal. clear R M' Ht.
  induction M as [|row code df codes Hrow M IH]; simpl; [reflexivity|].
  rewrite series_set_again, IH. reflexivity.
Qed.

(** X6 at a table of two rows of texts. *)
Lemma add_tullkod_column_again_witness :
  map (row_input demo_taric (str "Namn") (str "Beskrivning") (str "Substans"))
    (df_values [demo_row1 ++ [(str "Tullkod", CellStr (str "30049000"))];
                demo_row2 ++ [(str "Tullkod", CellStr (str "30049000"))]])
  = map (row_input demo_taric (str "Namn") (str "Beskrivning") (str "Substans"))
      (df_values [demo_row1; demo_row2])
  /\ @add_tullkod_column ascii_classes pystr demo_taric (service_up (str "Kod: 3004 90 00"))
       [demo_row1 ++ [(str "Tullkod", CellStr (str "30049000"))];
        demo_row2 ++ [(str "Tullkod", CellStr (str "30049000"))]]
       (str "Namn") (str "Beskrivning") (str "Substans") default_output_col
     = Ok [demo_row1 ++ [(str "Tullkod", CellStr (str "30049000"))];
           demo_row2 ++ [(str "Tullkod", CellStr (str "30049000"))]].
Proof.
  apply (@add_tullkod_column_again ascii_classes pystr demo_taric
           (service_up (str "Kod: 3004 90 00")) [demo_row1; demo_row2]);
    try discriminate.
  reflexivity.
Defined.

(** On the sheet of numbers with a column of floats the second run does
    send other requests: the first run is asked about 3004.0, and the
    column of codes it adds makes the second run ask about 3004. *)
Example add_tullkod_column_again_numbers :
  @add_tullkod_column ascii_classes pystr demo_taric
    (service_knows request_3004 (str "3004909099")) sheet_of_numbers
    (str "Art") (str "Styrka") (str "Antal") default_output_col
  = Ok [numeric_row 3004 500 20 (CellFloat (str "1.5"))
          ++ [(str "Tullkod", CellStr (str "UNKNOWN"))];
        numeric_row 3005 250 10 (CellFloat (str "2.5"))
          ++ [(str "Tullkod", CellStr (str "UNKNOWN"))]]
  /\ @add_tullkod_column ascii_classes pystr demo_taric
       (service_knows request_3004 (str "3004909099"))
       [numeric_row 3004 500 20 (CellFloat (str "1.5"))
          ++ [(str "Tullkod", CellStr (str "UNKNOWN"))];
        numeric_row 3005 250 10 (CellFloat (str "2.5"))
          ++ [(str "Tullkod", CellStr (str "UNKNOWN"))]]
       (str "Art") (str "Styrka") (str "Antal") default_output_col
     = Ok [numeric_row 3004 500 20 (CellFloat (str "1.5"))
             ++ [(str "Tullkod", CellStr (str "3004909099"))];
           numeric_row 3005 250 10 (CellFloat (str "2.5"))
             ++ [(str "Tullkod", CellStr (str "UNKNOWN"))]].
Proof. split; vm_compute; reflexivity. Qed.

(** ** The tab for a single product *)

Section TabSingleFacts.

Context {U : CharClasses}.
Variable E : Type.
Variable taric_text : pystr.
Variable llm : Messages -> result E pystr.
Variable explanation_llm : Messages -> result E pystr.

(** The run of the button with at least one field filled in, by the
    outcome of the two calls. *)
Lemma tab_single_generate_filled (product_name product_description composition : pystr) :
  truthy product_name || truthy product_description || truthy composition = true ->
  tab_single_generate taric_text llm explanation_llm
    product_name product_description composition
  = match classify_product taric_text llm (Some product_name)
            (Some product_description) (Some composition) with
    | Raise e => ([], Raise e)
    | Ok tullkod =>
        match explain_classification taric_text explanation_llm (Some product_name)
                (Some product_description) (Some composition) tullkod with
        | Raise e => ([st_success (str "Customs code: **" ++ tullkod ++ str "**")], Raise e)
        | Ok explanation =>
            ([st_success (str "Customs code: **" ++ tullkod ++ str "**");
              st_markdown (if negb (pystr_eqb tullkod (str "UNKNOWN"))
                           then str "**AI-explanation:** " ++ explanation
                           else unknown_explanation);
              st_markdown tulltaxan_link_code], Ok tt)
        end
    end.
Proof.
  intros H. unfold tab_single_generate. rewrite H. cbn [negb].
  destruct (classify_product _ _ _ _ _) as [tullkod|e]; [|reflexivity].
  unfold run_bind at 1. cbn [lift].
  destruct (explain_classification _ _ _ _ _ _) as [explanation|e]; [|reflexivity].
  destruct (negb (pystr_eqb tullkod (str "UNKNOWN"))); reflexivity.
Qed.

End TabSingleFacts.

(** X7. The button asks for a field to be filled in, and does nothing
    else, exactly when the three fields are empty, whatever the two
    services would do; a field of blanks only counts as filled in. *)
Theorem tab_single_generate_warning_iff
    (U : CharClasses) (E : Type) (taric_text : pystr)
    (llm explanation_llm : Messages -> result E pystr)
    (product_name product_description composition : pystr) :
  tab_single_generate taric_text llm explanation_llm
    product_name product_description composition
  = ([st_warning (str "Fill in at least one field before generating.")], Ok tt)
  <-> product_name = [] /\ product_description = [] /\ composition = [].
Proof.
  split.
  - destruct (truthy product_name || truthy product_description || truthy composition)
      eqn:T.
    + rewrite (tab_single_generate_filled _ _ _ _ _ _ T).
      destruct (classify_product _ _ _ _ _) as [tullkod|e]; [|discriminate].
      destruct (explain_classification _ _ _ _ _ _); discriminate.
    + intros _. destruct product_name, product_description, composition;
        try discriminate T. auto.
  - intros (-> & -> & ->). reflexivity.
Qed.

(** X8. When the code comes out as the sentinel, the explanation service
    is asked all the same: what it answers is not shown (the page has the
    fixed sentence instead), and what it raises ends the run after the code
    was shown. *)
Theorem tab_single_generate_unknown
    (U : CharClasses) (E : Type) (taric_text : pystr)
    (llm explanation_llm : Messages -> result E pystr)
    (product_name product_description composition : pystr) :
  truthy product_name || truthy product_description || truthy composition = true ->
  classify_product taric_text llm (Some product_name) (Some product_description)
    (Some composition) = Ok UNKNOWN ->
  (forall reply,
      explanation_llm
        (explanation_prompt
           (explanation_input taric_text (Some product_name) (Some product_description)
              (Some composition) UNKNOWN)) = Ok reply ->
      tab_single_generate taric_text llm explanation_llm
        product_name product_description composition
      = ([st_success (str "Customs code: **UNKNOWN**");
          st_markdown unknown_explanation;
          st_markdown tulltaxan_link_code], Ok tt))
  /\ (forall e,
      explanation_llm
        (explanation_prompt
           (explanation_input taric_text (Some product_name) (Some product_description)
              (Some composition) UNKNOWN)) = Raise e ->
      tab_single_generate taric_text llm explanation_llm
        product_name product_description composition
      = ([st_success (str "Customs code: **UNKNOWN**")], Raise e)).
Proof.
  intros T C. rewrite (tab_single_generate_filled _ _ _ _ _ _ T), C.
  unfold explain_classification, explanation_chain.
  split; [intros reply ->|intros e ->]; reflexivity.
Qed.

(** X8 with a name of blanks only and the explanation service down. *)
Lemma tab_single_generate_unknown_witness :
  @tab_single_generate ascii_classes pystr demo_taric service_no_code service_down
    (str "  ") [] []
  = ([st_success (str "Customs code: **UNKNOWN**")], Raise (str "ServiceUnavailable")).
Proof.
  apply (proj2 (@tab_single_generate_unknown ascii_classes pystr demo_taric
                  service_no_code service_down (str "  ") [] []
                  eq_refl eq_refl)).
  reflexivity.
Defined.

(** ** Login *)

Lemma script_run_logged_in (env : Credentials) (w : LoginWidgets) (s : SessionState) :
  logged_in s = true -> script_run env w s = (Some true, MainContent).
Proof. destruct s as [[|]|]; try discriminate. reflexivity. Qed.

Lemma script_run_logged_out (env : Credentials) (w : LoginWidgets) (s : SessionState) :
  logged_in s = false ->
  script_run env w s
  = if accepted_attempt env w then (Some true, MainContent)
    else (Some false,
          LoginPage (if w_login_button w then [st_error (str "Wrong username.")] else [])).
Proof.
  intros H. unfold script_run, script_once, login, accepted_attempt.
  destruct s as [[|]|]; try discriminate H;
    destruct (w_login_button w); simpl;
    destruct (eq_optional (w_user w) (APP_USERNAME env)); simpl;
    try destruct (eq_optional (w_pwd w) (APP_PASSWORD env)); reflexivity.
Qed.

(** The page an interaction ends on, from any session state. *)
Lemma session_from_main_content (env : Credentials) (ws : list LoginWidgets)
    (s : SessionState) (k : nat) :
  nth_error (session_from env s ws) k = Some MainContent
  <-> k < length ws
      /\ (logged_in s = true
          \/ exists j w, j <= k /\ nth_error ws j = Some w /\ accepted_attempt env w = true).
Proof.
  revert s k. induction ws as [|w ws IH]; intros s k.
  - simpl. destruct k; split; try discriminate; intros [H _]; inversion H.
  - simpl. destruct (logged_in s) eqn:L.
    + rewrite (script_run_logged_in env w s L). destruct k as [|k]; simpl.
      * split; [intros _; split; [lia|now left]|reflexivity].
      * rewrite IH. simpl. split; intros [H _]; (split; [lia|now left]).
    + rewrite (script_run_logged_out env w s L).
      destruct (accepted_attempt env w) eqn:A.
      * destruct k as [|k]; simpl.
        -- split; [intros _; split; [lia|]|reflexivity].
           right. exists 0, w. auto.
        -- rewrite IH. simpl. split; intros [H _]; (split; [lia|]); [|now left].
           right. exists 0, w. split; [lia|auto].
      * destruct k as [|k]; simpl.
        -- split; [discriminate|]. intros [_ [H|(j & w' & Hj & Hw & Ha)]]; [discriminate|].
           destruct j; [|lia]. simpl in Hw. congruence.
        -- rewrite IH. simpl. split; intros [Hk [H|(j & w' & Hj & Hw & Ha)]];
             try discriminate; (split; [lia|]); right.
           ++ exists (S j), w'. split; [lia|auto].
           ++ destruct j as [|j]; [simpl in Hw; congruence|].
              exists j, w'. split; [lia|auto].
Qed.

(** X9. When the user name or the password is not set in the environment,
    nothing that is typed logs in: no interaction of a session ever ends on
    the main content. *)
Theorem session_closed_without_credentials (env : Credentials) (ws : list LoginWidgets) :
  APP_USERNAME env = None \/ APP_PASSWORD env = None ->
  ~ In MainContent (session env ws).
Proof.
  intros Hnone Hin. apply In_nth_error in Hin as [k Hk].
  apply session_from_main_content in Hk as [_ [H|(j & w & _ & _ & Ha)]];
    [discriminate H|].
  unfold accepted_attempt in Ha. apply andb_true_iff in Ha as [Ha Hp].
  apply andb_true_iff in Ha as [_ Hu].
  destruct Hnone as [Hn|Hn]; rewrite Hn in *; discriminate.
Qed.

(** X9 with no password set and the user name typed right, twice. *)
Lemma session_closed_without_credentials_witness :
  ~ In MainContent
      (session {| APP_USERNAME := Some (str "admin"); APP_PASSWORD := None |}
         [{| w_user := str "admin"; w_pwd := []; w_login_button := true |};
          {| w_user := str "admin"; w_pwd := str "None"; w_login_button := true |}]).
Proof.
  apply session_closed_without_credentials. right. reflexivity.
Defined.

(** X10. In a session, an interaction ends on the main content exactly
    when it or an earlier one pressed the button with the user name and the
    password both equal to the configured ones: there is no other way in,
    and no way out again. *)
Theorem session_main_content_iff (env : Credentials) (ws : list LoginWidgets) (k : nat) :
  nth_error (session env ws) k = Some MainContent
  <-> k < length ws
      /\ exists j w, j <= k /\ nth_error ws j = Some w /\ accepted_attempt env w = true.
Proof.
  unfold session. rewrite session_from_main_content. simpl.
  split; intros [Hk H]; (split; [exact Hk|]); [|now right].
  destruct H as [H|H]; [discriminate H|exact H].
Qed.

Example session_three_interactions :
  session {| APP_USERNAME := Some (str "admin"); APP_PASSWORD := Some (str "s3cret") |}
    [{| w_user := str "admin"; w_pwd := str "secret"; w_login_button := true |};
     {| w_user := str "admin"; w_pwd := str "s3cret"; w_login_button := true |};
     {| w_user := []; w_pwd := []; w_login_button := false |}]
  = [LoginPage [st_error (str "Wrong username.")]; MainContent; MainContent].
Proof. reflexivity. Qed.

(** ** The tab for a spreadsheet *)

(** X11. For a sheet with at least one column the three preselected columns
    exist; from three columns on they are three different columns, below
    that the composition is preselected on the column of the
    description. *)
Theorem default_columns_in_range (ncols : nat) :
  1 <= ncols ->
  0 < ncols /\ desc_default ncols < ncols /\ comp_default ncols < ncols
  /\ (3 <= ncols ->
      0 <> desc_default ncols /\ 0 <> comp_default ncols
      /\ desc_default ncols <> comp_default ncols)
  /\ (ncols < 3 -> comp_default ncols = desc_default ncols).
Proof.
  intros H. unfold comp_default, desc_default.
  destruct (Nat.ltb_spec 1 ncols), (Nat.ltb_spec 2 ncols); repeat split; lia.
Qed.

(** X11 at a sheet of two columns. *)
Lemma default_columns_in_range_witness :
  0 < 2 /\ desc_default 2 < 2 /\ comp_default 2 < 2
  /\ (3 <= 2 ->
      0 <> desc_default 2 /\ 0 <> comp_default 2 /\ desc_default 2 <> comp_default 2)
  /\ (2 < 3 -> comp_default 2 = desc_default 2).
Proof. apply default_columns_in_range. lia. Defined.

(** X12. The button of the spreadsheet tab classifies a copy: whether the
    batch returns or raises, every table that existed before, the uploaded
    one included, is as it was; when it returns, the result is a new table
    object, holding the uploaded table with the column "Customs code"
    set. *)
Theorem tab_bulk_generate_keeps_upload
    (U : CharClasses) (E : Type) (taric_text : pystr) (llm : Messages -> result E pystr)
    (h : Heap) (df : nat) (name_col desc_col comp_col : pystr) :
  df < next h ->
  (forall r, r < next h ->
     cells (fst (tab_bulk_generate taric_text llm h df name_col desc_col comp_col)) r
     = cells h r)
  /\ (forall shown result_df,
        snd (tab_bulk_generate taric_text llm h df name_col desc_col comp_col)
        = (shown, Ok result_df) ->
        result_df = next h /\ result_df <> df
        /\ shown = [st_success (str "Classification is completed!")]
        /\ add_tullkod_column taric_text llm (cells h df) name_col desc_col comp_col
             (str "Customs code")
           = Ok (cells (fst (tab_bulk_generate taric_text llm h df
                               name_col desc_col comp_col)) result_df)).
Proof.
  intros Hdf. unfold tab_bulk_generate, df_copy, add_tullkod_column_object,
    add_tullkod_column. cbn [cells next].
  rewrite Nat.eqb_refl.
  destruct (df_apply_rows _ (cells h df)) as [codes|e]; cbn [fst snd cells next].
  - split.
    + intros r Hr. destruct (Nat.eqb_spec r (next h)); [lia|reflexivity].
    + intros shown result_df [= <- <-]. rewrite Nat.eqb_refl.
      repeat split; try reflexivity. lia.
  - split.
    + intros r Hr. destruct (Nat.eqb_spec r (next h)); [lia|reflexivity].
    + intros shown result_df H. discriminate H.
Qed.

(** X12 at that heap, with the service up and with the service down on
    the second row. *)
Lemma tab_bulk_generate_keeps_upload_witness :
  cells (fst (@tab_bulk_generate ascii_classes pystr demo_taric
                (service_up (str "3004909099")) demo_heap 0
                (str "Namn") (str "Beskrivning") (str "Substans"))) 0
  = [demo_row1; demo_row3]
  /\ cells (fst (@tab_bulk_generate ascii_classes pystr demo_taric
                   (service_down_on demo_row3 (str "3004909099")) demo_heap 0
                   (str "Namn") (str "Beskrivning") (str "Substans"))) 0
     = [demo_row1; demo_row3].
Proof.
  split.
  - apply (proj1 (@tab_bulk_generate_keeps_upload ascii_classes pystr demo_taric
                    (service_up (str "3004909099")) demo_heap 0
                    (str "Namn") (str "Beskrivning") (str "Substans")
                    (Nat.lt_0_1)) 0 Nat.lt_0_1).
  - apply (proj1 (@tab_bulk_generate_keeps_upload ascii_classes pystr demo_taric
                    (service_down_on demo_row3 (str "3004909099")) demo_heap 0
                    (str "Namn") (str "Beskrivning") (str "Substans")
                    (Nat.lt_0_1)) 0 Nat.lt_0_1).
Defined.

(** By itself [add_tullkod_column] changes the table it is given and
    returns that same object. *)
Example add_tullkod_column_object_in_place :
  let r := @add_tullkod_column_object ascii_classes pystr demo_taric
             (service_up (str "3004909099")) demo_heap 0
             (str "Namn") (str "Beskrivning") (str "Substans") default_output_col in
  snd r = Ok 0
  /\ cells (fst r) 0
     = [demo_row1 ++ [(str "Tullkod", CellStr (str "3004909099"))];
        demo_row3 ++ [(str "Tullkod", CellStr (str "3004909099"))]].
Proof. split; reflexivity. Qed.

(** ** What reaches the explanation service and the output column *)

Lemma classify_product_ok_normalized
    (U : CharClasses) (E : Type) (taric_text : pystr) (llm : Messages -> result E pystr)
    (product_name product_description composition : option pystr) (code : pystr) :
  classify_product taric_text llm product_name product_description composition = Ok code ->
  sentinel_or_digits code.
Proof.
  unfold classify_product, classification_chain.
  destruct (llm _) as [raw|e]; simpl; [|discriminate].
  intros [= <-]. apply (outcome_short (normalize_code_outcome raw)).
Qed.

(** X13. The explanation service only ever gets a normalised code from the
    button of the single-product tab, never the raw answer of the
    classification service: two explanation services that agree on the
    requests whose code is the sentinel or one to twelve digits give the
    same run. *)
Theorem tab_single_generate_explains_normalized_code
    (U : CharClasses) (E : Type) (taric_text : pystr)
    (llm explanation_llm explanation_llm' : Messages -> result E pystr)
    (product_name product_description composition : pystr) :
  (forall code,
      sentinel_or_digits code ->
      explanation_llm
        (explanation_prompt
           (explanation_input taric_text (Some product_name) (Some product_description)
              (Some composition) code))
      = explanation_llm'
          (explanation_prompt
             (explanation_input taric_text (Some product_name) (Some product_description)
                (Some composition) code))) ->
  tab_single_generate taric_text llm explanation_llm
    product_name product_description composition
  = tab_single_generate taric_text llm explanation_llm'
      product_name product_description composition.
Proof.
  intros H.
  destruct (truthy product_name || truthy product_description || truthy composition)
    eqn:T.
  - rewrite !(tab_single_generate_filled _ _ _ _ _ _ T).
    destruct (classify_product _ _ _ _ _) as [tullkod|e] eqn:C; [|reflexivity].
    unfold explain_classification, explanation_chain.
    rewrite (H tullkod (classify_product_ok_normalized _ _ _ _ _ _ C)). reflexivity.
  - unfold tab_single_generate. rewrite T. reflexivity.
Qed.

(** Two explanation requests that differ in the code only differ. *)
Lemma explanation_user_message_code (json name desc comp code code' : pystr) :
  explanation_user_message
    {| e_json := json; e_code := code; e_name := name; e_desc := desc;
       e_composition := comp |}
  = explanation_user_message
      {| e_json := json; e_code := code'; e_name := name; e_desc := desc;
         e_composition := comp |} ->
  code = code'.
Proof.
  unfold explanation_user_message. cbn [e_json e_code e_name e_desc e_composition].
  intros Q.
  apply (app_inv_head (str "JSON:")) in Q. apply (app_inv_head [newline]) in Q.
  apply (app_inv_head json) in Q. apply (app_inv_head [newline; newline]) in Q.
  apply (app_inv_head (str "Vald tullkod: ")) in Q.
  apply app_inv_tail in Q. exact Q.
Qed.

(** X13 with an explanation service that is down on the request carrying
    the words "raw text" as the code, and one that is always up. *)
Lemma tab_single_generate_explains_normalized_code_witness :
  @tab_single_generate ascii_classes pystr demo_taric (service_up (str "raw text"))
    (explanation_down_on (str "raw text") (str "Tabletter.")) (str "Alvedon") [] []
  = @tab_single_generate ascii_classes pystr demo_taric (service_up (str "raw text"))
      (service_up (str "Tabletter.")) (str "Alvedon") [] [].
Proof.
  apply tab_single_generate_explains_normalized_code.
  intros code Hcode. unfold explanation_down_on, service_up.
  destruct (pystr_eqb _ _) eqn:Q; [|reflexivity].
  exfalso. apply pystr_eqb_eq in Q.
  apply (@explanation_user_message_code demo_taric (str "Alvedon") [] [] code
           (str "raw text")) in Q.
  subst code. destruct Hcode as [H|(_ & H & _)]; discriminate H.
Defined.

Lemma Forall2_In_r (A B : Type) (R : A -> B -> Prop) (l : list A) (l' : list B) (b : B) :
  Forall2 R l l' -> In b l' -> exists a, In a l /\ R a b.
Proof.
  induction 1 as [|x y l l' H F IH]; intros Hb; [destruct Hb|].
  destruct Hb as [<-|Hb].
  - exists x. split; [now left|exact H].
  - destruct (IH Hb) as (a & Ha & Hr). exists a. split; [now right|exact Hr].
Qed.

(** X14. Every cell [add_tullkod_column] writes into the output column is
    a text, the sentinel or one to twelve decimal digits, whatever the
    service answered. *)
Theorem add_tullkod_column_writes_codes
    (U : CharClasses) (E : Type) (taric_text : pystr) (llm : Messages -> result E pystr)
    (df df' : DataFrame) (name_col desc_col comp_col output_col : pystr) :
  add_tullkod_column taric_text llm df name_col desc_col comp_col output_col = Ok df' ->
  forall row', In row' df' ->
    exists code,
      (forall d, series_get row' output_col d = CellStr code) /\ sentinel_or_digits code.
Proof.
  unfold add_tullkod_column, df_apply_rows, df_values.
  destruct (mapM _ (map _ df)) as [codes|e] eqn:M; simpl; [|discriminate].
  intros [= <-] row' Hrow'. apply mapM_ok_inv, Forall2_map_l in M.
  pose proof (df_setitem_rows output_col M) as F.
  destruct (@Forall2_In_r _ _ _ _ _ _ F Hrow') as (row & _ & code & Hcode & ->).
  exists code. split; [intros d; apply series_get_set_same|].
  apply (classify_product_ok_normalized _ _ _ _ _ _ Hcode).
Qed.

(** X14 at the second row of a table of two rows, where the service
    answers with a sentence. *)
Lemma add_tullkod_column_writes_codes_witness :
  exists code,
    (forall d,
        series_get (demo_row2 ++ [(str "Tullkod", CellStr (str "30049000"))])
          default_output_col d = CellStr code)
    /\ @sentinel_or_digits ascii_classes code.
Proof.
  apply (@add_tullkod_column_writes_codes ascii_classes pystr demo_taric
           (service_up (str "Kod: 3004 90 00"))
           [demo_row1; demo_row2]
           [demo_row1 ++ [(str "Tullkod", CellStr (str "30049000"))];
            demo_row2 ++ [(str "Tullkod", CellStr (str "30049000"))]]
           (str "Namn") (str "Beskrivning") (str "Substans") default_output_col).
  - reflexivity.
  - right. left. reflexivity.
Defined.
